(** * IFARMA: the deterministic study-protocol planning engine

  A shallow embedding of the bioequivalence planning code:

  - [app/models/design.py]        the [DesignType] and [IntakeMode]
                                  enumerations;
  - [app/agents/study_design.py]  design selection, washout, dropout;
  - [app/agents/sample_size.py]   PowerTOST tables, interpolation, the
                                  sample-size agent;
  - [app/models/sample_size.py]   the [SampleSizeResult] model;
  - [app/utils/blood_sampling.py] blood budget and sampling schedule;
  - [app/utils/study_timeline.py] visits, dosing days and blood volume
                                  of the timeline.

  Python [float] values are modelled as exact rationals ([Q]); the
  rounding of binary floating point is not modelled.  The grid of
  sampling hours, the sample volumes and the table entries are exact in
  both.  Python exceptions are modelled by the [exc] monad. *)

From Stdlib Require Import ZArith QArith Qround List String Bool Lia Lqa.
Import ListNotations.

Local Open Scope string_scope.
Local Open Scope list_scope.
Local Open Scope Q_scope.

(* ================================================================== *)
(** * Exceptions *)

Module Py.

(** The exceptions the modelled code can raise. *)
Inductive exception : Type :=
| AttributeError (name : string)
| IndexError
| ZeroDivisionError
| ValidationError (field : string).

Inductive exc (A : Type) : Type :=
| Ret (a : A)
| Raise (e : exception).

Arguments Ret {A} a.
Arguments Raise {A} e.

Definition bind {A B : Type} (m : exc A) (k : A -> exc B) : exc B :=
  match m with
  | Ret a => k a
  | Raise e => Raise e
  end.

Definition returns {A : Type} (m : exc A) : Prop := exists a, m = Ret a.

Definition raises {A : Type} (m : exc A) : Prop := exists e, m = Raise e.

End Py.

Import Py.

Notation "x <- m ;; k" := (bind m (fun x => k))
(at level 61, m at next level, right associativity).

(** Comparisons on rationals as booleans. *)
Definition Qleb (x y : Q) : bool := Qle_bool x y.
Definition Qltb (x y : Q) : bool := negb (Qle_bool y x).
Definition Qeqb (x y : Q) : bool := Qeq_bool x y.

(** Python's [min(a, b)] and [max(a, b)]: the first argument wins a tie. *)
Definition py_min (a b : Q) : Q := if Qltb b a then b else a.
Definition py_max (a b : Q) : Q := if Qltb a b then b else a.

(* ================================================================== *)
(** * app/models/design.py *)

Module Design.

(** [class DesignType(str, Enum)]: exactly four members. *)
Inductive DesignType : Type :=
| CROSSOVER_2X2
| REPLICATE_3
| REPLICATE_4
| PARALLEL.

Definition DesignType_eqb (a b : DesignType) : bool :=
  match a, b with
  | CROSSOVER_2X2, CROSSOVER_2X2 => true
  | REPLICATE_3, REPLICATE_3 => true
  | REPLICATE_4, REPLICATE_4 => true
  | PARALLEL, PARALLEL => true
  | _, _ => false
  end.

(** The class namespace: member name to member. *)
Definition DesignType_members : list (string * DesignType) :=
  [ ("CROSSOVER_2X2", CROSSOVER_2X2);
    ("REPLICATE_3", REPLICATE_3);
    ("REPLICATE_4", REPLICATE_4);
    ("PARALLEL", PARALLEL) ].

Fixpoint lookup_member (name : string) (l : list (string * DesignType))
  : option DesignType :=
  match l with
  | [] => None
  | (k, v) :: tl => if String.eqb k name then Some v else lookup_member name tl
  end.

(** The expression [DesignType.<name>]: attribute lookup on the enum
    class, raising [AttributeError] for a name that is not a member. *)
Definition DesignType_attr (name : string) : exc DesignType :=
  match lookup_member name DesignType_members with
  | Some d => Ret d
  | None => Raise (AttributeError name)
  end.

(** [DesignResult.is_hvd] as computed at construction
    (study_design.py, line 109):
    [is_hvd or (cv_intra is not None and cv_intra >= CV_INTRA_HVD_THRESHOLD)]. *)
Definition CV_INTRA_HVD_THRESHOLD : Q := 30.

Definition DesignResult_is_hvd (is_hvd : bool) (cv_intra : option Q) : bool :=
  is_hvd ||
  match cv_intra with
  | Some cv => Qleb CV_INTRA_HVD_THRESHOLD cv
  | None => false
  end.

End Design.

(* ================================================================== *)
(** * app/agents/study_design.py *)

Module StudyDesignAgent.

Import Design.

Definition WASHOUT_MULTIPLIER_SAFE : Q := 6.
Definition T_HALF_LONG_THRESHOLD : Q := 24.

(** [t_half is not None and t_half > T_HALF_LONG_THRESHOLD] *)
Definition long_half_life (t_half : option Q) : bool :=
  match t_half with
  | Some t => Qltb T_HALF_LONG_THRESHOLD t
  | None => false
  end.

(** [cv_intra is not None and cv_intra >= CV_INTRA_HVD_THRESHOLD] *)
Definition high_cv (cv_intra : option Q) : bool :=
  match cv_intra with
  | Some cv => Qleb CV_INTRA_HVD_THRESHOLD cv
  | None => false
  end.

Definition _select_design (cv_intra t_half : option Q) (is_nti is_hvd : bool)
  : exc DesignType :=
  if long_half_life t_half then DesignType_attr "PARALLEL"
  else if is_nti then DesignType_attr "REPLICATE_4"
  else if is_hvd || high_cv cv_intra then DesignType_attr "REPLICATE_4"
  else DesignType_attr "CROSSOVER_2X2".

Definition _select_adaptive_design (cv_intra t_half : option Q)
           (is_nti is_hvd : bool) : exc DesignType :=
  if long_half_life t_half then DesignType_attr "ADAPTIVE_PARALLEL"
  else DesignType_attr "ADAPTIVE_CROSSOVER".

(** [_calculate_washout] returns [(washout_days, formula)]; only the
    first component is modelled, the second is a formatted message.
    The membership test builds the tuple
    [(DesignType.PARALLEL, DesignType.ADAPTIVE_PARALLEL)] first. *)
Definition _calculate_washout (t_half : option Q) (design : DesignType)
  : exc (option Z) :=
  p <- DesignType_attr "PARALLEL" ;;
  ap <- DesignType_attr "ADAPTIVE_PARALLEL" ;;
  if DesignType_eqb design p || DesignType_eqb design ap then Ret None
  else
    match t_half with
    | None => Ret None
    | Some t =>
        let washout_hours := t * WASHOUT_MULTIPLIER_SAFE in
        let washout_days := Qceiling (washout_hours / 24) in
        Ret (Some (Z.max 7 washout_days))
    end.

(** [washout_days and washout_days > 14] *)
Definition long_washout (washout_days : option Z) : bool :=
  match washout_days with
  | Some d => negb (d =? 0)%Z && (14 <? d)%Z
  | None => false
  end.

(** [_estimate_dropout] returns [(rate, justification)]; the rate is
    modelled. *)
Definition _estimate_dropout (design : DesignType) (washout_days : option Z)
  : exc Q :=
  p <- DesignType_attr "PARALLEL" ;;
  if DesignType_eqb design p then Ret 0.10
  else
    ap <- DesignType_attr "ADAPTIVE_PARALLEL" ;;
    if DesignType_eqb design ap then Ret 0.15
    else
      ac <- DesignType_attr "ADAPTIVE_CROSSOVER" ;;
      if DesignType_eqb design ac then Ret 0.15
      else
        r3 <- DesignType_attr "REPLICATE_3" ;;
        r4 <- DesignType_attr "REPLICATE_4" ;;
        if DesignType_eqb design r3 || DesignType_eqb design r4 then
          if long_washout washout_days then Ret 0.30 else Ret 0.25
        else if long_washout washout_days then Ret 0.15 else Ret 0.12.

(** [_determine_be_limits] *)
Definition _determine_be_limits (is_nti is_hvd : bool) : Q * Q * bool :=
  if is_nti then (90.0, 111.11, false)
  else if is_hvd then (80.0, 125.0, true)
  else (80.0, 125.0, false).

End StudyDesignAgent.

(* ================================================================== *)
(** * app/models/sample_size.py *)

Module Model.

(** The text of [calculation_description] is a deterministic rendering
    of the arguments [_generate_description] is called with; the
    rendering (string formatting) is not modelled, the arguments are. *)
Record description_args : Type := mk_description_args {
  desc_cv_intra : Q;
  desc_n_base : Z;
  desc_n_with_dropout : Z;
  desc_n_total : Z;
  desc_dropout_rate : Q;
  desc_n_periods : Z;
  desc_gmr : Q;
  desc_screenfail_rate : Q;
  desc_is_hvd : bool;
  desc_is_nti : bool
}.

(** Values held in a model instance. *)
Inductive value : Type :=
| VInt (z : Z)
| VFloat (q : Q)
| VBool (b : bool)
| VStr (s : string)
| VText (a : description_args).

(** A keyword-argument list, and an instance as the list of its fields. *)
Definition kwargs : Type := list (string * value).
Definition instance : Type := list (string * value).

Fixpoint get (name : string) (l : list (string * value)) : option value :=
  match l with
  | [] => None
  | (k, v) :: tl => if String.eqb k name then Some v else get name tl
  end.

(** A declared field: its name and its default ([None] for [Field(...)],
    a required field). *)
Definition field_decl : Type := (string * option value)%type.

(** [BaseModel.__init__] under the default configuration: every declared
    field takes the keyword of its name, else its default, else
    validation fails; keywords that name no declared field are ignored. *)
Fixpoint BaseModel_init (fields : list field_decl) (kw : kwargs)
  : exc instance :=
  match fields with
  | [] => Ret []
  | (name, default) :: tl =>
      v <- match get name kw, default with
           | Some v, _ => Ret v
           | None, Some d => Ret d
           | None, None => Raise (ValidationError name)
           end ;;
      rest <- BaseModel_init tl kw ;;
      Ret ((name, v) :: rest)
  end.

(** Attribute read on an instance. *)
Definition getattr (obj : instance) (name : string) : exc value :=
  match get name obj with
  | Some v => Ret v
  | None => Raise (AttributeError name)
  end.

(** [class SampleSizeResult(BaseModel)]: the declared fields, in order,
    each with its default. *)
Definition SampleSizeResult_fields : list field_decl :=
  [ ("n_base", None);
    ("n_with_dropout", None);
    ("n_with_screenfail", None);
    ("n_total", None);
    ("cv_intra_used", None);
    ("power", Some (VFloat 0.80));
    ("alpha", Some (VFloat 0.05));
    ("gmr", Some (VFloat 0.95));
    ("theta", Some (VFloat 1.25));
    ("dropout_rate", Some (VFloat 0.12));
    ("screenfail_rate", Some (VFloat 0.15));
    ("blood_volume_ml", Some (VFloat 0.0));
    ("blood_volume_ok", Some (VBool true));
    ("calculation_description", Some (VStr "")) ].

Definition SampleSizeResult (kw : kwargs) : exc instance :=
  BaseModel_init SampleSizeResult_fields kw.

End Model.

(* ================================================================== *)
(** * app/agents/sample_size.py *)

Module SampleSizeAgent.

Import Model.

Definition DEFAULT_POWER : Q := 0.80.
Definition DEFAULT_ALPHA : Q := 0.05.
Definition DEFAULT_GMR : Q := 0.95.
Definition DEFAULT_THETA : Q := 1.25.
Definition DEFAULT_SCREENFAIL : Q := 0.15.
Definition DEFAULT_DROPOUT : Q := 0.15.
Definition MIN_SUBJECTS : Z := 12.
Definition MAX_BASE_SUBJECTS : Z := 80.
Definition MAX_CV_INTRA : Q := 60.0.
Definition BLOOD_PER_POINT_ML : Q := 5.0.
Definition MAX_BLOOD_ML : Q := 450.0.
Definition CV_HVD_THRESHOLD : Q := 30.0.

(** A PowerTOST table: a dict from CV (percent) to subjects, as the list
    of its items in the order of the literal. *)
Definition table : Type := list (Z * Z).

Definition TOST_2x2_095 : table :=
  [ (10, 8); (15, 12); (17, 14); (20, 20); (22, 22); (24, 26); (25, 28);
    (26, 30); (28, 34); (30, 40); (32, 44); (35, 52); (38, 64);
    (40, 70); (42, 78); (45, 90); (48, 104); (50, 116) ]%Z.

Definition TOST_2x2_090 : table :=
  [ (15, 18); (17, 20); (20, 26); (22, 30); (24, 34); (25, 36);
    (26, 40); (28, 44); (30, 52); (32, 56); (35, 68); (38, 80);
    (40, 90); (42, 96); (45, 112); (48, 130); (50, 142) ]%Z.

Definition TOST_PARALLEL_095 : table :=
  [ (20, 38); (25, 54); (30, 78); (35, 102); (40, 132);
    (45, 162); (50, 196); (55, 232); (60, 270) ]%Z.

Definition TOST_PARALLEL_090 : table :=
  [ (20, 60); (25, 88); (30, 124); (35, 166); (40, 214);
    (45, 268); (50, 326); (55, 390); (60, 458) ]%Z.

Definition ABEL_2x2x4_095 : table :=
  [ (30, 24); (32, 24); (34, 26); (35, 26); (36, 28); (38, 30);
    (40, 32); (42, 34); (44, 36); (45, 38); (48, 42); (50, 46);
    (55, 54); (60, 64); (65, 76); (70, 90) ]%Z.

Definition ABEL_2x2x4_090 : table :=
  [ (30, 30); (32, 32); (34, 34); (35, 34); (36, 36); (38, 38);
    (40, 40); (42, 42); (44, 44); (45, 46); (48, 50); (50, 54);
    (55, 64); (60, 76); (65, 90); (70, 104) ]%Z.

Definition ABEL_2x2x3_095 : table :=
  [ (30, 36); (32, 36); (34, 36); (35, 36); (36, 36); (38, 42);
    (40, 42); (42, 48); (45, 54); (48, 60); (50, 66);
    (55, 78); (60, 90); (65, 108); (70, 126) ]%Z.

Definition NTID_2x2x4_0975 : table :=
  [ (4, 54); (5, 34); (6, 24); (8, 16); (10, 14);
    (12, 14); (15, 16); (20, 28); (25, 48); (30, 72) ]%Z.

Definition NTID_2x2x4_095 : table :=
  [ (4, 98); (5, 64); (6, 48); (8, 32); (10, 24);
    (12, 22); (15, 22); (20, 36); (25, 58); (30, 88) ]%Z.

(** [sorted(table.keys())] zipped with [[table[c] for c in cvs]]: the
    items in ascending key order (insertion sort; keys of a dict are
    distinct). *)
Fixpoint insert_item (x : Z * Z) (l : list (Z * Z)) : list (Z * Z) :=
  match l with
  | [] => [x]
  | y :: tl => if (fst x <=? fst y)%Z then x :: l else y :: insert_item x tl
  end.

Definition sorted_items (t : table) : list (Z * Z) :=
  fold_right insert_item [] t.

(** The value a segment [(c0, n0)], [(c1, n1)] gives at [cv]:
    [ceil(ns[i] + frac * (ns[i+1] - ns[i]))] with
    [frac = (cv - cvs[i]) / (cvs[i+1] - cvs[i])]. *)
Definition segment_value (c0 n0 c1 n1 : Z) (cv : Q) : Z :=
  let frac := (cv - inject_Z c0) / (inject_Z c1 - inject_Z c0) in
  Qceiling (inject_Z n0 + frac * (inject_Z n1 - inject_Z n0)).

(** The [for i in range(len(cvs) - 1)] loop: the first segment with
    [cvs[i] <= cv <= cvs[i+1]] returns. *)
Fixpoint scan_segments (items : list (Z * Z)) (cv : Q) : option Z :=
  match items with
  | (c0, n0) :: (((c1, n1) :: _) as tl) =>
      if Qleb (inject_Z c0) cv && Qleb cv (inject_Z c1)
      then Some (Z.max MIN_SUBJECTS (segment_value c0 n0 c1 n1 cv))
      else scan_segments tl cv
  | _ => None
  end.

Definition _interpolate_table (t : table) (cv : Q) : exc Z :=
  let items := sorted_items t in
  match items with
  | [] => Raise IndexError
  | (c_first, n_first) :: _ =>
      let '(c_last, n_last) := last items (c_first, n_first) in
      if Qleb cv (inject_Z c_first) then Ret (Z.max MIN_SUBJECTS n_first)
      else if Qleb (inject_Z c_last) cv then Ret n_last
      else
        match scan_segments items cv with
        | Some n => Ret n
        | None => Ret (Z.max MIN_SUBJECTS n_last)
        end
  end.

(** [use_090 = gmr is not None and gmr <= 0.92] *)
Definition use_090 (gmr : option Q) : bool :=
  match gmr with Some g => Qleb g 0.92 | None => false end.

(** [use_0975 = gmr is not None and gmr >= 0.96] *)
Definition use_0975 (gmr : option Q) : bool :=
  match gmr with Some g => Qleb 0.96 g | None => false end.

Definition _calculate_n_base (cv_intra : Q) (gmr : option Q) (n_periods : Z)
           (is_hvd is_nti : bool) : exc Z :=
  if is_nti then
    let t := if use_0975 gmr then NTID_2x2x4_0975 else NTID_2x2x4_095 in
    n <- _interpolate_table t cv_intra ;; Ret (Z.max MIN_SUBJECTS n)
  else if is_hvd && Qleb CV_HVD_THRESHOLD cv_intra then
    let t :=
      if (4 <=? n_periods)%Z then
        (if use_090 gmr then ABEL_2x2x4_090 else ABEL_2x2x4_095)
      else if (n_periods =? 3)%Z then ABEL_2x2x3_095
      else (if use_090 gmr then TOST_2x2_090 else TOST_2x2_095) in
    n <- _interpolate_table t cv_intra ;; Ret (Z.max MIN_SUBJECTS n)
  else
    let t :=
      if (n_periods =? 1)%Z then
        (if use_090 gmr then TOST_PARALLEL_090 else TOST_PARALLEL_095)
      else (if use_090 gmr then TOST_2x2_090 else TOST_2x2_095) in
    n <- _interpolate_table t cv_intra ;; Ret (Z.max MIN_SUBJECTS n).

(** The [overrides] dict: an absent key is [None]. *)
Record Overrides : Type := mk_overrides {
  o_power : option Q;
  o_alpha : option Q;
  o_gmr : option Q;
  o_theta : option Q;
  o_screenfail_rate : option Q;
  o_dropout_rate : option Q;
  o_min_subjects : option Z;
  o_blood_per_point_ml : option Q;
  o_max_blood_ml : option Q;
  o_max_base_subjects : option Z
}.

Definition no_overrides : Overrides :=
  mk_overrides None None None None None None None None None None.

(** The [design] entry of the input, after [model_dump()]. *)
Record DesignData : Type := mk_design_data {
  d_n_periods : option Z;
  d_n_blood_points : option Z;
  d_is_nti : option bool;
  d_dropout_rate : option Q
}.

Record Input : Type := mk_input {
  in_cv_intra : option Q;
  in_design : DesignData;
  in_is_hvd : option bool;
  in_overrides : Overrides
}.

(** [d.get(key, default)] *)
Definition get_or {A : Type} (o : option A) (default : A) : A :=
  match o with Some a => a | None => default end.

(** [math.ceil(x / y)] for a float division: a zero divisor raises. *)
Definition ceil_div (x y : Q) : exc Z :=
  if Qeqb y 0 then Raise ZeroDivisionError else Ret (Qceiling (x / y)).

(** The local variables of [run] just before the result is built. *)
Record Locals : Type := mk_locals {
  l_cv_intra : Q;
  l_is_hvd : bool;
  l_n_base : Z;
  l_needs_adaptive : bool;
  l_n_with_dropout : Z;
  l_n_with_screenfail : Z;
  l_n_total : Z;
  l_blood_volume : Q;
  l_blood_ok : bool
}.

Definition effective_cv (cv_intra : option Q) : Q :=
  py_min (get_or cv_intra 30.0) MAX_CV_INTRA.

Definition run_locals (inp : Input) : exc Locals :=
  let design_data := in_design inp in
  let n_periods := get_or (d_n_periods design_data) 2%Z in
  let n_blood_points := get_or (d_n_blood_points design_data) 18%Z in
  let is_hvd := get_or (in_is_hvd inp) false in
  let is_nti := get_or (d_is_nti design_data) false in
  let overrides := in_overrides inp in
  let gmr := get_or (o_gmr overrides) DEFAULT_GMR in
  let screenfail_rate := get_or (o_screenfail_rate overrides) DEFAULT_SCREENFAIL in
  let dropout_rate :=
    get_or (o_dropout_rate overrides)
           (get_or (d_dropout_rate design_data) DEFAULT_DROPOUT) in
  let min_subjects := get_or (o_min_subjects overrides) MIN_SUBJECTS in
  let blood_per_point := get_or (o_blood_per_point_ml overrides) BLOOD_PER_POINT_ML in
  let max_blood := get_or (o_max_blood_ml overrides) MAX_BLOOD_ML in
  let cv_intra := effective_cv (in_cv_intra inp) in
  let is_hvd := if Qleb CV_HVD_THRESHOLD cv_intra then true else is_hvd in
  n_base <- _calculate_n_base cv_intra (Some gmr) n_periods is_hvd is_nti ;;
  let max_base := get_or (o_max_base_subjects overrides) MAX_BASE_SUBJECTS in
  let needs_adaptive := (max_base <? n_base)%Z in
  n_with_dropout <- ceil_div (inject_Z n_base) (1 - dropout_rate) ;;
  n_with_screenfail <- ceil_div (inject_Z n_with_dropout) (1 - screenfail_rate) ;;
  let n_total := Z.max min_subjects n_with_screenfail in
  let blood_volume :=
    inject_Z n_blood_points * inject_Z n_periods * blood_per_point in
  let blood_ok := Qleb blood_volume max_blood in
  Ret (mk_locals cv_intra is_hvd n_base needs_adaptive n_with_dropout
                 n_with_screenfail n_total blood_volume blood_ok).

(** [run]: the locals, then the [SampleSizeResult(...)] call with the
    keywords of the source, [needs_adaptive] among them.  The narrative
    is represented by the arguments [_generate_description] receives. *)
Definition run (inp : Input) : exc instance :=
  l <- run_locals inp ;;
  let design_data := in_design inp in
  let overrides := in_overrides inp in
  let n_periods := get_or (d_n_periods design_data) 2%Z in
  let is_nti := get_or (d_is_nti design_data) false in
  let power := get_or (o_power overrides) DEFAULT_POWER in
  let alpha := get_or (o_alpha overrides) DEFAULT_ALPHA in
  let gmr := get_or (o_gmr overrides) DEFAULT_GMR in
  let theta := get_or (o_theta overrides) DEFAULT_THETA in
  let screenfail_rate := get_or (o_screenfail_rate overrides) DEFAULT_SCREENFAIL in
  let dropout_rate :=
    get_or (o_dropout_rate overrides)
           (get_or (d_dropout_rate design_data) DEFAULT_DROPOUT) in
  let calc_desc :=
    mk_description_args (l_cv_intra l) (l_n_base l) (l_n_with_dropout l)
      (l_n_total l) dropout_rate n_periods gmr screenfail_rate
      (l_is_hvd l) is_nti in
  SampleSizeResult
    [ ("n_base", VInt (l_n_base l));
      ("n_with_dropout", VInt (l_n_with_dropout l));
      ("n_with_screenfail", VInt (l_n_with_screenfail l));
      ("n_total", VInt (l_n_total l));
      ("cv_intra_used", VFloat (l_cv_intra l));
      ("power", VFloat power);
      ("alpha", VFloat alpha);
      ("gmr", VFloat gmr);
      ("theta", VFloat theta);
      ("dropout_rate", VFloat dropout_rate);
      ("screenfail_rate", VFloat screenfail_rate);
      ("blood_volume_ml", VFloat (l_blood_volume l));
      ("blood_volume_ok", VBool (l_blood_ok l));
      ("needs_adaptive", VBool (l_needs_adaptive l));
      ("calculation_description", VText calc_desc) ].

End SampleSizeAgent.

(* ================================================================== *)
(** * app/utils/blood_sampling.py *)

Module BloodSampling.

Definition MAX_BLOOD_PER_SUBJECT_ML : Q := 450.0.
Definition FK_SAMPLE_ML : Q := 5.0.
Definition FLUSH_ML : Q := 0.5.
Definition BHAK_SAMPLE_ML : Q := 10.0.
Definition KAK_SAMPLE_ML : Q := 4.0.
Definition SEROLOGY_ML : Q := 10.0.
Definition GENETICS_ML : Q := 10.0.
Definition MAX_POINTS_PER_PERIOD : Z := 20.
Definition MIN_POINTS_PER_PERIOD : Z := 11.
Definition MAX_SAMPLING_HOURS : Q := 72.
Definition MIN_SAMPLING_T_HALF : Q := 3.

(** ** Lists of hours *)

Definition mem (t : Q) (l : list Q) : bool := existsb (Qeqb t) l.

(** [s.add(t)] on a set kept as a duplicate-free list. *)
Definition set_add (t : Q) (s : list Q) : list Q :=
  if mem t s then s else s ++ [t].

(** [s.update(l)] *)
Definition set_update (l : list Q) (s : list Q) : list Q :=
  fold_left (fun acc t => set_add t acc) l s.

(** [sorted(l)] and [l.sort()] *)
Fixpoint insert_sorted (t : Q) (l : list Q) : list Q :=
  match l with
  | [] => [t]
  | x :: tl => if Qleb t x then t :: l else x :: insert_sorted t tl
  end.

Definition sorted (l : list Q) : list Q := fold_right insert_sorted [] l.

(** [l.remove(t)]: the first occurrence. *)
Fixpoint remove_first (t : Q) (l : list Q) : list Q :=
  match l with
  | [] => []
  | x :: tl => if Qeqb x t then tl else x :: remove_first t tl
  end.

(** [l[-k:]] and [l[:k]] *)
Definition last_n (k : nat) (l : list Q) : list Q := skipn (List.length l - k) l.
Definition first_n (k : nat) (l : list Q) : list Q := firstn k l.

Definition Qabs' (x : Q) : Q := if Qltb x 0 then - x else x.

(** [min(l, key=lambda x: abs(x - value))] for a non-empty [l] with head
    [x0]: the first element of least key. *)
Definition nearest (value : Q) (x0 : Q) (l : list Q) : Q :=
  fold_left
    (fun best x =>
       if Qltb (Qabs' (x - value)) (Qabs' (best - value)) then x else best)
    l x0.

Definition _snap_to_grid (value : Q) (grid : list Q) : Q :=
  match grid with
  | [] => value
  | x0 :: tl => nearest value x0 tl
  end.

(** [max(l)] for a non-empty list with head [x0]. *)
Definition list_max (x0 : Q) (l : list Q) : Q :=
  fold_left (fun best x => if Qltb best x then x else best) l x0.

Definition standard_grid : list Q :=
  [ 0; 0.25; 0.5; 0.75; 1; 1.25; 1.5; 2; 2.5; 3; 4; 5; 6; 8; 10; 12;
    16; 20; 24; 30; 36; 48; 60; 72 ].

(** ** The blocks of [_generate_sampling_schedule] *)

Definition before_selected (grid : list Q) (tmax_snap : Q) : list Q :=
  let before_tmax := filter (fun t => Qltb 0 t && Qltb t tmax_snap) grid in
  if (3 <=? List.length before_tmax)%nat then last_n 3 before_tmax else before_tmax.

Definition after_selected (grid : list Q) (tmax_snap : Q) : list Q :=
  let after_tmax := filter (fun t => Qltb tmax_snap t) grid in
  if (3 <=? List.length after_tmax)%nat then first_n 3 after_tmax else after_tmax.

(** [last_snap], after the [if last_snap <= tmax_snap] adjustment:
    [grid[-1] if grid else max_hours]. *)
Definition terminal_anchor (grid : list Q) (max_hours tmax_snap last_snap : Q)
  : Q :=
  if Qleb last_snap tmax_snap then last grid max_hours else last_snap.

(** [l[-1] = x] on a non-empty list. *)
Definition set_last (x : Q) (l : list Q) : list Q := removelast l ++ [x].

(** The 3-4 points of the terminal phase. *)
Definition terminal_selected (grid : list Q) (terminal_start last_snap : Q)
  : list Q :=
  let terminal_candidates :=
    filter (fun t => Qltb terminal_start t && Qleb t last_snap) grid in
  let len := Z.of_nat (List.length terminal_candidates) in
  if (4 <? len)%Z then
    let step := inject_Z len / 4 in
    let picked :=
      map (fun i => nth (Z.to_nat (Qfloor (inject_Z i * step)))
                        terminal_candidates 0)
          [0; 1; 2; 3]%Z in
    if negb (mem last_snap picked) then set_last last_snap picked else picked
  else terminal_candidates.

(** One pass of the [for i in range(len(selected) - 1)] loop of the fill
    phase, over the state [(best_gap, best_insert)]. *)
Fixpoint best_insertion (selected remaining : list Q)
         (st : Q * option Q) : Q * option Q :=
  match selected with
  | a :: ((b :: _) as tl) =>
      let gap := b - a in
      let st' :=
        if Qltb (fst st) gap then
          let candidates := filter (fun t => Qltb a t && Qltb t b) remaining in
          match candidates with
          | [] => st
          | c0 :: cs =>
              let mid := (a + b) / 2 in
              (gap, Some (nearest mid c0 cs))
          end
        else st in
      best_insertion tl remaining st'
  | _ => st
  end.

(** The fill loop [while len(selected) < n_points and remaining]; each
    iteration removes one element from [remaining] or stops, so [fuel]
    at least [List.length remaining] is never exhausted. *)
Fixpoint fill (fuel : nat) (n_points : Z) (selected remaining : list Q)
  : list Q :=
  match fuel with
  | O => selected
  | S fuel' =>
      if (Z.of_nat (List.length selected) <? n_points)%Z
         && negb (Nat.eqb (List.length remaining) 0)
      then
        match snd (best_insertion selected remaining (0, None)) with
        | Some best_insert =>
            fill fuel' n_points (sorted (selected ++ [best_insert]))
                 (remove_first best_insert remaining)
        | None => selected
        end
      else selected
  end.

(** [selected.index(t)] for an element of [selected]. *)
Fixpoint index_of (t : Q) (l : list Q) : nat :=
  match l with
  | [] => O
  | x :: tl => if Qeqb x t then O else S (index_of t tl)
  end.

(** The [for t in removable] loop of the trim phase over the state
    [(min_impact, worst)]; [None] stands for [float('inf')]. *)
Definition least_impact (selected removable : list Q) : option Q :=
  snd
    (fold_left
       (fun (st : option Q * option Q) t =>
          let idx := index_of t selected in
          if (0 <? idx)%nat && (idx <? List.length selected - 1)%nat then
            let impact := nth (idx + 1) selected 0 - nth (idx - 1) selected 0 in
            match fst st with
            | None => (Some impact, Some t)
            | Some m => if Qltb impact m then (Some impact, Some t) else st
            end
          else st)
       removable (None, None)).

(** The trim loop [while len(selected) > n_points]; each iteration
    removes one element of [selected] or stops. *)
Fixpoint trim (fuel : nat) (n_points : Z) (protected selected : list Q)
  : list Q :=
  match fuel with
  | O => selected
  | S fuel' =>
      if (n_points <? Z.of_nat (List.length selected))%Z then
        let removable := filter (fun t => negb (mem t protected)) selected in
        match removable with
        | [] => selected
        | _ =>
            match least_impact selected removable with
            | Some worst =>
                trim fuel' n_points protected (remove_first worst selected)
            | None => selected
            end
        end
      else selected
  end.

(** Everything after the three snaps, as a function of them. *)
Definition schedule_from_snaps (n_points : Z) (grid : list Q)
           (max_hours tmax_snap last_snap0 endpoint_snap : Q) : list Q :=
  let must_have := set_add 0 [] in
  let must_have := set_add tmax_snap must_have in
  let before := before_selected grid tmax_snap in
  let must_have := set_update before must_have in
  let after := after_selected grid tmax_snap in
  let must_have := set_update after must_have in
  let last_snap := terminal_anchor grid max_hours tmax_snap last_snap0 in
  let must_have := set_add last_snap must_have in
  let must_have :=
    if Qltb last_snap endpoint_snap then set_add endpoint_snap must_have
    else must_have in
  let terminal_start :=
    match after with
    | [] => tmax_snap
    | x0 :: tl => list_max x0 tl
    end in
  let must_have :=
    set_update (terminal_selected grid terminal_start last_snap) must_have in
  let selected := sorted must_have in
  let remaining := filter (fun t => negb (mem t selected)) grid in
  let selected := fill (List.length remaining) n_points selected remaining in
  let protected :=
    set_update (first_n 2 after)
      (set_update (first_n 2 before)
         (set_add last_snap (set_add tmax_snap (set_add 0 [])))) in
  trim (List.length selected) n_points protected selected.

Definition _generate_sampling_schedule (n_points : Z)
           (tmax_hours t_half_hours max_hours : Q) : list Q :=
  let grid := filter (fun t => Qleb t max_hours) standard_grid in
  let tmax_snap := _snap_to_grid tmax_hours grid in
  let last_time := py_min (3 * t_half_hours) max_hours in
  let last_snap := _snap_to_grid last_time grid in
  let endpoint_snap := _snap_to_grid max_hours grid in
  schedule_from_snaps n_points grid max_hours tmax_snap last_snap endpoint_snap.

(** ** [calculate_blood_sampling] *)

Record BloodSamplingResult : Type := mk_result {
  n_periods : Z;
  fk_points_per_period : Z;
  fk_total_points : Z;
  needs_genetics : bool;
  fk_volume_ml : Q;
  flush_volume_ml : Q;
  lab_volume_ml : Q;
  genetics_volume_ml : Q;
  total_volume_ml : Q;
  sampling_times_hours : list Q;
  sampling_duration_hours : Z;
  n_lab_visits : Z;
  biosamples_total : Z
}.

Definition lab_volume_of (n_periods : Z) (needs_genetics : bool) : Q :=
  let n_lab_visits := (2 + n_periods)%Z in
  let bhak_total := inject_Z n_lab_visits * BHAK_SAMPLE_ML in
  let kak_total := inject_Z n_lab_visits * KAK_SAMPLE_ML in
  let serology_total := SEROLOGY_ML in
  let genetics_total := if needs_genetics then GENETICS_ML else 0.0 in
  bhak_total + kak_total + serology_total + genetics_total.

(** [fk_per_period_max], before the clamps; the float division raises on
    a zero divisor. *)
Definition fk_per_period_max (n_periods : Z) (fk_sample_ml : Q)
           (needs_genetics : bool) (max_blood_ml : Q) : exc Z :=
  let lab_volume := lab_volume_of n_periods needs_genetics in
  let available_for_fk :=
    max_blood_ml - lab_volume + inject_Z n_periods * FLUSH_ML in
  let divisor := inject_Z n_periods * (fk_sample_ml + FLUSH_ML) in
  if Qeqb divisor 0 then Raise ZeroDivisionError
  else Ret (Qfloor (available_for_fk / divisor)).

Definition sampling_duration_of (t_half_hours tmax_hours : Q) : Z :=
  let sampling_after_cmax :=
    py_min (MIN_SAMPLING_T_HALF * t_half_hours) MAX_SAMPLING_HOURS in
  let sampling_duration := tmax_hours + sampling_after_cmax in
  if Qleb sampling_duration 24 then 24%Z
  else if Qleb sampling_duration 36 then 36%Z
  else if Qleb sampling_duration 48 then 48%Z
  else 72%Z.

Definition calculate_blood_sampling (n_periods : Z) (t_half_hours tmax_hours : Q)
           (n_subjects : Z) (fk_sample_ml : Q) (needs_genetics : bool)
           (max_blood_ml : Q) : exc BloodSamplingResult :=
  let n_lab_visits := (2 + n_periods)%Z in
  let genetics_total := if needs_genetics then GENETICS_ML else 0.0 in
  let lab_volume := lab_volume_of n_periods needs_genetics in
  fk_max <- fk_per_period_max n_periods fk_sample_ml needs_genetics max_blood_ml ;;
  let fk_per_period := Z.min fk_max MAX_POINTS_PER_PERIOD in
  let fk_per_period := Z.max fk_per_period MIN_POINTS_PER_PERIOD in
  let fk_total_points := (fk_per_period * n_periods)%Z in
  let fk_volume := inject_Z fk_total_points * fk_sample_ml in
  let flush_count := (fk_total_points - n_periods)%Z in
  let flush_volume := inject_Z flush_count * FLUSH_ML in
  let total_volume := lab_volume + fk_volume + flush_volume in
  let sampling_duration_hours := sampling_duration_of t_half_hours tmax_hours in
  let sampling_times :=
    _generate_sampling_schedule fk_per_period tmax_hours t_half_hours
      (inject_Z sampling_duration_hours) in
  let biosamples_total := (fk_per_period * n_periods * n_subjects)%Z in
  Ret (mk_result n_periods fk_per_period fk_total_points needs_genetics
         fk_volume flush_volume lab_volume genetics_total total_volume
         sampling_times sampling_duration_hours n_lab_visits biosamples_total).


(** ** Predicates on schedules *)


End BloodSampling.

(* ================================================================== *)
(** * Specification-side definitions *)

Module Spec.

Import Design SampleSizeAgent.

(** The priority order of design selection, in the words of the
    specification: a half-life above 24 h gives the parallel design;
    otherwise a narrow therapeutic index gives the 4-period replicate;
    otherwise high variability (flag, or CV of at least 30) gives the
    4-period replicate; otherwise the 2x2 crossover. *)
Definition design_by_priority (cv_intra t_half : option Q)
           (is_nti is_hvd : bool) : DesignType :=
  match t_half with
  | Some t => if Qltb 24 t then PARALLEL
              else if is_nti then REPLICATE_4
              else if is_hvd then REPLICATE_4
              else match cv_intra with
                   | Some cv => if Qleb 30 cv then REPLICATE_4 else CROSSOVER_2X2
                   | None => CROSSOVER_2X2
                   end
  | None => if is_nti then REPLICATE_4
            else if is_hvd then REPLICATE_4
            else match cv_intra with
                 | Some cv => if Qleb 30 cv then REPLICATE_4 else CROSSOVER_2X2
                 | None => CROSSOVER_2X2
                 end
  end.


(** The base size read from a given table. *)
Definition n_base_from (t : table) (cv : Q) : exc Z :=
  n <- _interpolate_table t cv ;; Ret (Z.max MIN_SUBJECTS n).

(** The reference tables of the calculator. *)
Definition unscaled_tables : list table :=
  [ TOST_2x2_095; TOST_2x2_090; TOST_PARALLEL_095; TOST_PARALLEL_090 ].
Definition scaled_tables : list table :=
  [ ABEL_2x2x4_095; ABEL_2x2x4_090; ABEL_2x2x3_095 ].
Definition nti_tables : list table :=
  [ NTID_2x2x4_0975; NTID_2x2x4_095 ].
Definition reference_tables : list table :=
  unscaled_tables ++ scaled_tables ++ nti_tables.

(** Lowest and highest breakpoint of a table, with their values. *)
Definition first_item (t : table) : Z * Z := hd (0, 0)%Z (sorted_items t).
Definition last_item (t : table) : Z * Z := last (sorted_items t) (0, 0)%Z.

(** [(c0, n0)] and [(c1, n1)] are neighbouring breakpoints of [t]. *)
Definition neighbours (t : table) (c0 n0 c1 n1 : Z) : Prop :=
  exists pre post,
    sorted_items t = pre ++ (c0, n0) :: (c1, n1) :: post.

End Spec.

(* ================================================================== *)
(** * Properties of tables *)

Module TableProps.

Import SampleSizeAgent.

(** The breakpoints are strictly increasing. *)
Fixpoint keys_increasing (items : list (Z * Z)) : bool :=
  match items with
  | (c0, _) :: (((c1, _) :: _) as tl) => (c0 <? c1)%Z && keys_increasing tl
  | _ => true
  end.

(** Every segment that reaches beyond [lo] has non-decreasing values. *)
Fixpoint rising_after (lo : Q) (items : list (Z * Z)) : Prop :=
  match items with
  | (_, n0) :: (((c1, n1) :: _) as tl) =>
      (lo < inject_Z c1 -> (n0 <= n1)%Z) /\ rising_after lo tl
  | _ => True
  end.

(** The decidable form, for a bound that is an integer. *)
Fixpoint rising_from (from : Z) (items : list (Z * Z)) : bool :=
  match items with
  | (_, n0) :: (((c1, n1) :: _) as tl) =>
      ((c1 <=? from)%Z || (n0 <=? n1)%Z) && rising_from from tl
  | _ => true
  end.

(** All segments have non-decreasing values. *)
Fixpoint rising (items : list (Z * Z)) : bool :=
  match items with
  | (_, n0) :: (((_, n1) :: _) as tl) => (n0 <=? n1)%Z && rising tl
  | _ => true
  end.

(** The body of [_interpolate_table] on the sorted items. *)
Definition interpolate_items (items : list (Z * Z)) (cv : Q) : exc Z :=
  match items with
  | [] => Raise IndexError
  | (c_first, n_first) :: _ =>
      let '(c_last, n_last) := last items (c_first, n_first) in
      if Qleb cv (inject_Z c_first) then Ret (Z.max MIN_SUBJECTS n_first)
      else if Qleb (inject_Z c_last) cv then Ret n_last
      else
        match scan_segments items cv with
        | Some n => Ret n
        | None => Ret (Z.max MIN_SUBJECTS n_last)
        end
  end.

(** A table is well formed when it has two breakpoints or more, all
    distinct, and its highest value is at least the minimum. *)
Definition well_formed (t : table) : bool :=
  let items := sorted_items t in
  (2 <=? List.length items)%nat
  && keys_increasing items
  && (MIN_SUBJECTS <=? snd (last items (0, 0)%Z))%Z.

(** The table [_calculate_n_base] reads. *)
Definition table_read (cv : Q) (gmr : option Q) (n_periods : Z)
           (is_hvd is_nti : bool) : table :=
  if is_nti then
    (if use_0975 gmr then NTID_2x2x4_0975 else NTID_2x2x4_095)
  else if is_hvd && Qleb CV_HVD_THRESHOLD cv then
    (if (4 <=? n_periods)%Z then
       (if use_090 gmr then ABEL_2x2x4_090 else ABEL_2x2x4_095)
     else if (n_periods =? 3)%Z then ABEL_2x2x3_095
     else (if use_090 gmr then TOST_2x2_090 else TOST_2x2_095))
  else
    (if (n_periods =? 1)%Z then
       (if use_090 gmr then TOST_PARALLEL_090 else TOST_PARALLEL_095)
     else (if use_090 gmr then TOST_2x2_090 else TOST_2x2_095)).

End TableProps.

(* ================================================================== *)
(** * Inputs of the sample-size agent *)

Module Inputs.

Import SampleSizeAgent.

(** The rates and the floor [run] works with, after the overrides. *)
Definition dropout_rate_of (inp : Input) : Q :=
  get_or (o_dropout_rate (in_overrides inp))
         (get_or (d_dropout_rate (in_design inp)) DEFAULT_DROPOUT).

Definition screenfail_rate_of (inp : Input) : Q :=
  get_or (o_screenfail_rate (in_overrides inp)) DEFAULT_SCREENFAIL.

Definition min_subjects_of (inp : Input) : Z :=
  get_or (o_min_subjects (in_overrides inp)) MIN_SUBJECTS.

Definition max_base_subjects_of (inp : Input) : Z :=
  get_or (o_max_base_subjects (in_overrides inp)) MAX_BASE_SUBJECTS.

(** The same input with another [max_base_subjects] override. *)
Definition with_max_base_subjects (inp : Input) (m : option Z) : Input :=
  let o := in_overrides inp in
  mk_input (in_cv_intra inp) (in_design inp) (in_is_hvd inp)
    (mk_overrides (o_power o) (o_alpha o) (o_gmr o) (o_theta o)
       (o_screenfail_rate o) (o_dropout_rate o) (o_min_subjects o)
       (o_blood_per_point_ml o) (o_max_blood_ml o) m).

(** The same input with another [is_hvd] entry. *)
Definition with_is_hvd (inp : Input) (flag : option bool) : Input :=
  mk_input (in_cv_intra inp) (in_design inp) flag (in_overrides inp).

(** A design entry that only gives the number of periods. *)
Definition design_of_periods (n_periods : Z) : DesignData :=
  mk_design_data (Some n_periods) None None None.

(** CV 24, two periods, neither flag set, no override. *)
Definition scenario_standard : Input :=
  mk_input (Some 24) (design_of_periods 2) (Some false) no_overrides.

(** CV 50, two periods, no override. *)
Definition scenario_large : Input :=
  mk_input (Some 50) (design_of_periods 2) (Some false) no_overrides.


End Inputs.

(* ================================================================== *)
(** * Properties of schedules *)

Module ScheduleProps.

Import BloodSampling.

(** Equality of representation, which is what list membership needs. *)
Definition same (a b : Q) : bool :=
  (Qnum a =? Qnum b)%Z && (Qden a =? Qden b)%positive.

Definition member (t : Q) (l : list Q) : bool := existsb (same t) l.

(** The grid [_generate_sampling_schedule] works on for a whole number
    of hours. *)
Definition grid_upto (max_hours : Z) : list Q :=
  filter (fun t => Qleb t (inject_Z max_hours)) standard_grid.

(** The values the calculator passes on. *)
Definition durations : list Z := [24; 36; 48; 72]%Z.
Definition point_counts : list Z := [11; 12; 13; 14; 15; 16; 17; 18; 19; 20]%Z.



Definition schedule_of (n_points max_hours : Z) (ts ls : Q) : list Q :=
  let grid := grid_upto max_hours in
  schedule_from_snaps n_points grid (inject_Z max_hours) ts ls
    (_snap_to_grid (inject_Z max_hours) grid).

End ScheduleProps.

(* ================================================================== *)
(** * Views of the sample-size plan *)

Module PlanViews.

Import Model SampleSizeAgent.

(** The fields of a plan other than the narrative. *)
Definition numbers (r : instance) : list (string * value) :=
  filter
    (fun kv => negb (String.eqb (fst kv) "calculation_description")) r.

Definition numbers_of (m : exc instance) : exc (list (string * value)) :=
  r <- m ;; Ret (numbers r).

(** The same input with another [cv_intra] entry. *)
Definition with_cv_intra (inp : Input) (cv : option Q) : Input :=
  mk_input cv (in_design inp) (in_is_hvd inp) (in_overrides inp).

(** The interpolation gives, at every breakpoint of a table, the value
    of the table there, raised to the minimum. *)
Definition reproduces (t : table) : bool :=
  forallb
    (fun item =>
       match _interpolate_table t (inject_Z (fst item)) with
       | Ret n => (n =? Z.max MIN_SUBJECTS (snd item))%Z
       | Raise _ => false
       end)
    t.

End PlanViews.

(* ================================================================== *)
(** * app/models/design.py: intake modes *)

Module Intake.

(** [class IntakeMode(str, Enum)] *)
Inductive IntakeMode : Type :=
| FASTING
| FED
| BOTH.

Definition IntakeMode_value (m : IntakeMode) : string :=
  match m with
  | FASTING => "fasting"
  | FED => "fed"
  | BOTH => "both"
  end.

Definition IntakeMode_members : list IntakeMode := [FASTING; FED; BOTH].

(** The call [IntakeMode(value)]: the member of that value; [None]
    stands for the [ValueError] of a value no member has, which the only
    caller catches. *)
Definition IntakeMode_call (value : string) : option IntakeMode :=
  find (fun m => String.eqb (IntakeMode_value m) value) IntakeMode_members.

End Intake.

(* ================================================================== *)
(** * app/agents/study_design.py: the rest of the agent *)

Module StudyDesignRun.

Import Design StudyDesignAgent Intake BloodSampling.

(** [release_type in ("modified", "delayed")] *)
Definition modified_release (release_type : string) : bool :=
  String.eqb release_type "modified" || String.eqb release_type "delayed".

(** [_determine_intake_mode]: a non-empty user input that names a mode
    wins; a [ValueError] of the constructor is swallowed. *)
Definition _determine_intake_mode (user_input : option string)
           (release_type : string) : IntakeMode :=
  let chosen :=
    match user_input with
    | Some s => if String.eqb s EmptyString then None else IntakeMode_call s
    | None => None
    end in
  match chosen with
  | Some m => m
  | None => if modified_release release_type then BOTH else FASTING
  end.

(** [_describe_sequences] returns [(n_periods, n_sequences, text)]; the
    two numbers are modelled.  Each comparison evaluates the member it
    names first. *)
Definition _describe_sequences (design : DesignType) : exc (Z * Z) :=
  c <- DesignType_attr "CROSSOVER_2X2" ;;
  if DesignType_eqb design c then Ret (2, 2)%Z
  else
    r3 <- DesignType_attr "REPLICATE_3" ;;
    if DesignType_eqb design r3 then Ret (3, 3)%Z
    else
      r4 <- DesignType_attr "REPLICATE_4" ;;
      if DesignType_eqb design r4 then Ret (4, 2)%Z
      else
        p <- DesignType_attr "PARALLEL" ;;
        if DesignType_eqb design p then Ret (1, 2)%Z
        else
          ac <- DesignType_attr "ADAPTIVE_CROSSOVER" ;;
          if DesignType_eqb design ac then Ret (2, 2)%Z
          else
            ap <- DesignType_attr "ADAPTIVE_PARALLEL" ;;
            if DesignType_eqb design ap then Ret (1, 2)%Z
            else Ret (2, 2)%Z.

(** [x or default] on an optional float: [None] and [0.0] are falsy. *)
Definition or_default (x : option Q) (default : Q) : Q :=
  match x with
  | Some v => if Qeqb v 0 then default else v
  | None => default
  end.

(** [_plan_blood_sampling] with [app.utils.blood_sampling] importable (it
    is a module of the repository): the fallback branch is not reached.
    Returns [(n_points, description, sampling_times, sampling_hours)];
    the description is a formatted message and is left out. *)
Definition _plan_blood_sampling (tmax t_half : option Q) (n_periods : Z)
           (needs_genetics : bool) : exc (Z * list Q * Z) :=
  let _tmax := or_default tmax 1.0 in
  let _thalf := or_default t_half 12.0 in
  result <- calculate_blood_sampling n_periods _thalf _tmax 24 FK_SAMPLE_ML
              needs_genetics MAX_BLOOD_PER_SUBJECT_ML ;;
  Ret (fk_points_per_period result, sampling_times_hours result,
       sampling_duration_hours result).

(** The entries of [input_data] that [run] reads. *)
Record DesignInput : Type := mk_design_input {
  di_cv_intra : option Q;
  di_t_half_hours : option Q;
  di_tmax_hours : option Q;
  di_is_nti : bool;
  di_is_hvd : bool;
  di_release_type : option string;
  di_intake_mode : option string;
  di_force_adaptive : bool
}.

(** [DesignResult], without its formatted messages. *)
Record DesignResult : Type := mk_design_result {
  design_type : DesignType;
  design_justification : string;
  dr_n_periods : Z;
  dr_n_sequences : Z;
  dr_washout_days : option Z;
  dr_intake_mode : IntakeMode;
  dr_n_blood_points : Z;
  dr_sampling_duration_hours : Z;
  dr_sampling_times_hours : list Q;
  dr_dropout_rate : Q;
  dr_be_lower : Q;
  dr_be_upper : Q;
  dr_be_can_expand : bool;
  dr_is_hvd : bool;
  dr_is_nti : bool;
  dr_is_modified_release : bool
}.

(** [StudyDesignAgent.run], steps 1 to 12 in the order of the source.
    The text [_generate_justification] produces (by the language model
    or by its fallback template; it catches every exception) is the
    parameter [justification]. *)
Definition run (inp : DesignInput) (justification : string)
  : exc DesignResult :=
  let cv_intra := di_cv_intra inp in
  let t_half := di_t_half_hours inp in
  let tmax := di_tmax_hours inp in
  let is_nti := di_is_nti inp in
  let is_hvd := di_is_hvd inp in
  let release_type :=
    match di_release_type inp with
    | Some s => s
    | None => "immediate"
    end in
  design <- (if di_force_adaptive inp
             then _select_adaptive_design cv_intra t_half is_nti is_hvd
             else _select_design cv_intra t_half is_nti is_hvd) ;;
  washout_days <- _calculate_washout t_half design ;;
  let intake_mode := _determine_intake_mode (di_intake_mode inp) release_type in
  dropout_rate <- _estimate_dropout design washout_days ;;
  let be := _determine_be_limits is_nti is_hvd in
  ps <- _describe_sequences design ;;
  let is_modified := modified_release release_type in
  plan <- _plan_blood_sampling tmax t_half (fst ps) false ;;
  Ret (mk_design_result design justification (fst ps) (snd ps) washout_days
         intake_mode (fst (fst plan)) (snd plan) (snd (fst plan))
         dropout_rate (fst (fst be)) (snd (fst be)) (snd be)
         (DesignResult_is_hvd is_hvd cv_intra) is_nti is_modified).

End StudyDesignRun.

(* ================================================================== *)
(** * app/utils/blood_sampling.py: the helper *)

Module BloodSamplingAux.

Import BloodSampling.

(** [max_fk_points_per_period] *)
Definition max_fk_points_per_period (n_periods : Z) (needs_genetics : bool)
           (fk_sample_ml max_blood_ml : Q) : exc Z :=
  let n_lab := (2 + n_periods)%Z in
  let lab_vol :=
    inject_Z n_lab * BHAK_SAMPLE_ML + inject_Z n_lab * KAK_SAMPLE_ML
    + SEROLOGY_ML in
  let lab_vol := if needs_genetics then lab_vol + GENETICS_ML else lab_vol in
  let available := max_blood_ml - lab_vol + inject_Z n_periods * FLUSH_ML in
  let divisor := inject_Z n_periods * (fk_sample_ml + FLUSH_ML) in
  if Qeqb divisor 0 then Raise ZeroDivisionError
  else Ret (Z.min (Qfloor (available / divisor)) MAX_POINTS_PER_PERIOD).

(** The schedule starts at [first], ends at [final], and takes every
    point from [grid]. *)
Definition framed (first final : Q) (grid s : list Q) : bool :=
  match s with
  | [] => false
  | x :: _ => ScheduleProps.same x first && ScheduleProps.same (last s x) final
  end
  && forallb (fun t => ScheduleProps.member t grid) s.

End BloodSamplingAux.

(* ================================================================== *)
(** * app/utils/study_timeline.py *)

Module Timeline.

Definition SCREENING_DAYS_DEFAULT : Z := 14.
Definition FOLLOW_UP_DAYS_DEFAULT : Z := 7.
Definition BLOOD_PER_SAMPLE_ML : Q := 5.0.
Definition BLOOD_FLUSH_ML : Q := 0.5.
Definition BLOOD_KAK_ML : Q := 10.0.
Definition BLOOD_BHAK_ML : Q := 4.0.
Definition BLOOD_SEROLOGY_ML : Q := 10.0.
Definition BLOOD_GENETICS_ML : Q := 10.0.
Definition MAX_BLOOD_PER_SUBJECT_ML : Q := 450.0.
Definition MAX_BLOOD_POINTS_PER_PERIOD : Z := 20.

(** [int(x)] on a float: truncation toward zero. *)
Definition py_int (x : Q) : Z := if Qltb x 0 then Qceiling x else Qfloor x.

(** [max_fk_points] *)
Definition max_fk_points (n_periods : Z) (needs_genetics : bool)
           (max_blood_ml : Q) : exc Z :=
  let lab := ((2 + n_periods) * 14 + 10)%Z in
  let lab := if needs_genetics then (lab + 10)%Z else lab in
  let fk_budget := max_blood_ml - inject_Z lab in
  if Qleb fk_budget 0 then Ret 0%Z
  else
    let divisor := inject_Z n_periods * 5.5 in
    if Qeqb divisor 0 then Raise ZeroDivisionError
    else
      let n_max := py_int ((fk_budget + inject_Z n_periods * 0.5) / divisor) in
      Ret (Z.min n_max MAX_BLOOD_POINTS_PER_PERIOD).

(** [BloodVolume], without its two formatted messages. *)
Record BloodVolume : Type := mk_blood_volume {
  fk_points_per_period : Z;
  fk_total_points : Z;
  fk_volume_ml : Q;
  flush_volume_ml : Q;
  fk_total_ml : Q;
  n_lab_visits : Z;
  kak_total_ml : Q;
  bhak_total_ml : Q;
  serology_ml : Q;
  genetics_ml : Q;
  lab_total_ml : Q;
  biosamples_total : Z;
  total_per_subject_ml : Q;
  total_ok : bool
}.

Definition _calculate_blood_volume (points n_periods n_total : Z)
           (needs_genetics : bool) : BloodVolume :=
  let fk_total_points := (points * n_periods)%Z in
  let fk_volume := inject_Z fk_total_points * BLOOD_PER_SAMPLE_ML in
  let flush_points := (fk_total_points - n_periods)%Z in
  let flush_volume := inject_Z (Z.max 0 flush_points) * BLOOD_FLUSH_ML in
  let fk_total := fk_volume + flush_volume in
  let n_lab_visits := (2 + n_periods)%Z in
  let kak_total := inject_Z n_lab_visits * BLOOD_KAK_ML in
  let bhak_total := inject_Z n_lab_visits * BLOOD_BHAK_ML in
  let serology := BLOOD_SEROLOGY_ML in
  let genetics := if needs_genetics then BLOOD_GENETICS_ML else 0.0 in
  let lab_total := kak_total + bhak_total + serology + genetics in
  let total := fk_total + lab_total in
  let total_ok := Qleb total MAX_BLOOD_PER_SUBJECT_ML in
  let biosamples := (points * n_periods * n_total)%Z in
  mk_blood_volume points fk_total_points fk_volume flush_volume fk_total
    n_lab_visits kak_total bhak_total serology genetics lab_total
    biosamples total total_ok.

(** The [name] of a visit: screening, the PK visit of a period, or the
    follow-up. *)
Inductive visit_name : Type :=
| Screening
| PeriodVisit (period_num : Z)
| FollowUp.

Record Visit : Type := mk_visit {
  number : Z;
  name : visit_name;
  day_start : Z;
  day_end : Z
}.

(** [PeriodFK]; its field [number] is [period_number] here. *)
Record PeriodFK : Type := mk_period {
  period_number : Z;
  visit_number : Z;
  hospitalization_day : Z;
  dosing_day : Z;
  sampling_start_day : Z;
  sampling_end_day : Z;
  discharge_day : Z
}.

(** [StudyTimeline]; of its two texts, [groups_description] is
    represented by the group size it prints. *)
Record StudyTimeline : Type := mk_timeline {
  n_periods : Z;
  washout_days : Z;
  screening_days : Z;
  follow_up_days : Z;
  sampling_hours : Z;
  fk_period_days : Z;
  visits : list Visit;
  fk_periods : list PeriodFK;
  dosing_days : list Z;
  blood : BloodVolume;
  total_days_min : Z;
  total_days_max : Z;
  n_per_group : Z
}.

(** The variables the period loop updates; [last_dose_day] is unbound
    until the last iteration assigns it. *)
Record loop_state : Type := mk_state {
  visit_num : Z;
  current_day : Z;
  last_dose_day : option Z;
  st_visits : list Visit;
  st_fk_periods : list PeriodFK;
  st_dosing_days : list Z
}.

(** One iteration of [for period_idx in range(n_periods)]. *)
Definition period_step (periods washout calendar_days : Z)
           (st : loop_state) (period_idx : Z) : loop_state :=
  let period_num := (period_idx + 1)%Z in
  let hosp_day := current_day st in
  let dose_day := (current_day st + 1)%Z in
  let sampling_start := dose_day in
  let sampling_end := (dose_day + calendar_days - 1)%Z in
  let discharge := sampling_end in
  let periods' :=
    st_fk_periods st
    ++ [mk_period period_num (visit_num st) hosp_day dose_day sampling_start
          sampling_end discharge] in
  let doses' := st_dosing_days st ++ [dose_day] in
  let visits' :=
    st_visits st
    ++ [mk_visit (visit_num st) (PeriodVisit period_num) hosp_day discharge] in
  let visit_num' := (visit_num st + 1)%Z in
  if (period_idx <? periods - 1)%Z then
    mk_state visit_num' (dose_day + washout - 1)%Z (last_dose_day st)
      visits' periods' doses'
  else
    mk_state visit_num' (current_day st) (Some dose_day)
      visits' periods' doses'.

(** [range(n)] *)
Definition range (n : Z) : list Z := map Z.of_nat (seq 0 (Z.to_nat n)).

(** The state before the loop: the screening visit is recorded. *)
Definition initial_state (screening : Z) : loop_state :=
  mk_state 2 0 None [mk_visit 1 Screening (- screening) (-1)] [] [].

Definition period_loop (periods washout calendar_days screening : Z)
  : loop_state :=
  fold_left (period_step periods washout calendar_days) (range periods)
    (initial_state screening).

(** [math.ceil(sampling_hours / 24) + 1 if sampling_hours > 0 else 1] *)
Definition sampling_calendar_days_of (hours : Z) : Z :=
  if (0 <? hours)%Z then (Qceiling (inject_Z hours / 24) + 1)%Z else 1%Z.

(** How a call ends: with a value, with an exception, or with the
    [UnboundLocalError] of a local read before any assignment. *)
Inductive outcome (A : Type) : Type :=
| Returned (a : A)
| Raised (e : exception)
| Unbound (local : string).

Arguments Returned {A} a.
Arguments Raised {A} e.
Arguments Unbound {A} local.

(** [calculate_timeline]; the warning it prints when it lowers the
    number of points is not modelled. *)
Definition calculate_timeline
           (periods washout hours n_blood_points n_total n_sequences
            screening follow_up : Z) (needs_genetics : bool)
  : outcome StudyTimeline :=
  let sampling_calendar_days := sampling_calendar_days_of hours in
  let period_days := sampling_calendar_days in
  match max_fk_points periods needs_genetics MAX_BLOOD_PER_SUBJECT_ML with
  | Raise e => Raised e
  | Ret fk_points_max =>
      let fk_points :=
        Z.min (Z.min n_blood_points MAX_BLOOD_POINTS_PER_PERIOD)
          fk_points_max in
      let st := period_loop periods washout sampling_calendar_days screening in
      match last_dose_day st with
      | None => Unbound "last_dose_day"
      | Some last_dose =>
          let followup_day := (last_dose + follow_up)%Z in
          let all_visits :=
            st_visits st
            ++ [mk_visit (visit_num st) FollowUp followup_day followup_day] in
          let days_max := (screening + followup_day)%Z in
          let days_min := (1 + followup_day)%Z in
          let volume :=
            _calculate_blood_volume fk_points periods n_total needs_genetics in
          if (n_sequences =? 0)%Z then Raised ZeroDivisionError
          else
            Returned
              (mk_timeline periods washout screening follow_up hours
                 period_days all_visits (st_fk_periods st)
                 (st_dosing_days st) volume days_min days_max
                 (n_total / n_sequences)%Z)
      end
  end.

(** The laboratory volume as [max_fk_points] counts it. *)
Definition lab_of (periods : Z) (genetics : bool) : Z :=
  let lab := ((2 + periods) * 14 + 10)%Z in
  if genetics then (lab + 10)%Z else lab.

(** ** The loop in closed form *)

(** Period [i] (counted from 0) is hospitalised on day [i * washout]
    and dosed the day after. *)
Definition dosing_day_of (washout i : Z) : Z := (i * washout + 1)%Z.

Definition period_of (washout calendar_days i : Z) : PeriodFK :=
  mk_period (i + 1) (i + 2) (i * washout) (i * washout + 1)
    (i * washout + 1) (i * washout + calendar_days)
    (i * washout + calendar_days).

Definition period_visit_of (washout calendar_days i : Z) : Visit :=
  mk_visit (i + 2) (PeriodVisit (i + 1)) (i * washout)
    (i * washout + calendar_days).

(** The state after [k] iterations out of [periods]. *)
Definition state_after (periods washout calendar_days screening : Z)
           (k : nat) : loop_state :=
  let kz := Z.of_nat k in
  let completed := map Z.of_nat (seq 0 k) in
  mk_state (2 + kz)
    (if (kz <? periods)%Z then kz * washout else (kz - 1) * washout)%Z
    (if (kz <? periods)%Z then None else Some ((kz - 1) * washout + 1)%Z)
    (mk_visit 1 Screening (- screening) (-1)
     :: map (period_visit_of washout calendar_days) completed)
    (map (period_of washout calendar_days) completed)
    (map (dosing_day_of washout) completed).

(** ** Predicates on timelines *)

(** Consecutive dosing days are [washout] days apart. *)
Fixpoint evenly_spaced (washout : Z) (days : list Z) : Prop :=
  match days with
  | a :: ((b :: _) as tl) => (b = a + washout)%Z /\ evenly_spaced washout tl
  | _ => True
  end.

(** The visits are numbered [a], [a + 1], ... in order. *)
Fixpoint numbered_from (a : Z) (vs : list Visit) : Prop :=
  match vs with
  | [] => True
  | v :: tl => number v = a /\ numbered_from (a + 1) tl
  end.

(** No period is discharged after the next one is hospitalised. *)
Fixpoint stays_disjoint (ps : list PeriodFK) : Prop :=
  match ps with
  | p :: ((q :: _) as tl) =>
      (discharge_day p <= hospitalization_day q)%Z /\ stays_disjoint tl
  | _ => True
  end.

End Timeline.

(* ================================================================== *)
(** * Facts on comparisons *)

Lemma Qleb_le (x y : Q) : Qleb x y = true <-> x <= y.
Proof. unfold Qleb. apply Qle_bool_iff. Qed.

Lemma Qleb_gt (x y : Q) : Qleb x y = false <-> y < x.
Proof.
unfold Qleb. split; intro H.
- apply Qnot_le_lt. intro Hle. apply Qle_bool_iff in Hle. congruence.
- destruct (Qle_bool x y) eqn:E; [|reflexivity].
  apply Qle_bool_iff in E. exfalso. apply (Qlt_not_le _ _ H E).
Qed.

Lemma Qltb_lt (x y : Q) : Qltb x y = true <-> x < y.
Proof.
unfold Qltb. rewrite negb_true_iff. apply (Qleb_gt y x).
Qed.

Lemma Qltb_ge (x y : Q) : Qltb x y = false <-> y <= x.
Proof.
unfold Qltb. rewrite negb_false_iff. apply (Qleb_le y x).
Qed.

Lemma Qeqb_eq (x y : Q) : Qeqb x y = true <-> x == y.
Proof. unfold Qeqb. apply Qeq_bool_iff. Qed.

Lemma Qeqb_neq (x y : Q) : Qeqb x y = false <-> ~ x == y.
Proof.
unfold Qeqb. split; intro H.
- intro E. apply Qeq_bool_iff in E. congruence.
- destruct (Qeq_bool x y) eqn:E; [|reflexivity].
  apply Qeq_bool_iff in E. contradiction.
Qed.

(* ================================================================== *)
(** * Design selection, washout and dropout *)

Module StudyDesignFacts.

Import Design StudyDesignAgent Spec.

Lemma attr_missing (name : string) :
  lookup_member name DesignType_members = None ->
  DesignType_attr name = Raise (AttributeError name).
Proof. unfold DesignType_attr. intros ->. reflexivity. Qed.

(** The selection never raises: it only names members that exist. *)
Lemma select_design_by_priority cv t_half is_nti is_hvd :
  _select_design cv t_half is_nti is_hvd
  = Ret (design_by_priority cv t_half is_nti is_hvd).
Proof.
  unfold _select_design, design_by_priority, long_half_life, high_cv,
    T_HALF_LONG_THRESHOLD, CV_INTRA_HVD_THRESHOLD.
  destruct t_half as [t|]; [destruct (Qltb 24 t)|];
    destruct is_nti, is_hvd; try reflexivity;
    destruct cv as [c|]; try reflexivity;
    cbn [orb]; destruct (Qleb 30 c); reflexivity.
Qed.

(** C1. The washout calculation raises [AttributeError] for every
    half-life and every design, and the dropout estimation raises it
    for every design but the parallel one: both name the member
    [ADAPTIVE_PARALLEL], which [DesignType] does not have.  The
    components therefore do not complete on in-range inputs. *)
Theorem washout_and_dropout_raise :
  (forall t_half design,
      _calculate_washout t_half design
      = Raise (AttributeError "ADAPTIVE_PARALLEL"))
  /\ (forall washout_days,
         _estimate_dropout CROSSOVER_2X2 washout_days
         = Raise (AttributeError "ADAPTIVE_PARALLEL"))
  /\ (forall washout_days,
         _estimate_dropout REPLICATE_3 washout_days
         = Raise (AttributeError "ADAPTIVE_PARALLEL"))
  /\ (forall washout_days,
         _estimate_dropout REPLICATE_4 washout_days
         = Raise (AttributeError "ADAPTIVE_PARALLEL"))
  /\ _calculate_washout (Some 12) CROSSOVER_2X2
     = Raise (AttributeError "ADAPTIVE_PARALLEL").
Proof.
  repeat split; intros; reflexivity.
Qed.

(** C6. Design selection follows the priority order of the
    specification and returns for every input; with a half-life of 30 h
    it yields the parallel design even for a narrow-index, highly
    variable drug.  For that outcome the washout calculation does not
    give [None]: it raises [AttributeError]. *)
Theorem select_design_priority_washout_raises :
  (forall cv t_half is_nti is_hvd,
      _select_design cv t_half is_nti is_hvd
      = Ret (design_by_priority cv t_half is_nti is_hvd))
  /\ (forall cv is_nti is_hvd,
         _select_design cv (Some 30) is_nti is_hvd = Ret PARALLEL)
  /\ _calculate_washout (Some 30) PARALLEL
     = Raise (AttributeError "ADAPTIVE_PARALLEL").
Proof.
  split; [|split].
  - intros. apply select_design_by_priority.
  - intros. rewrite select_design_by_priority. reflexivity.
  - reflexivity.
Qed.

End StudyDesignFacts.

Module InterpolationFacts.
Import SampleSizeAgent Spec.

(** The fraction of the way from [c0] to [c1]. *)
Lemma frac_bounds (c0 c1 : Z) (cv : Q) :
  (c0 < c1)%Z -> inject_Z c0 <= cv -> cv <= inject_Z c1 ->
  0 <= (cv - inject_Z c0) / (inject_Z c1 - inject_Z c0) <= 1.
Proof.
  intros Hc H0 H1.
  assert (Hd : 0 < inject_Z c1 - inject_Z c0).
  { rewrite Zlt_Qlt in Hc. lra. }
  split.
  - apply Qle_shift_div_l; [exact Hd | lra].
  - apply Qle_shift_div_r; [exact Hd | lra].
Qed.

Lemma frac_mono (c0 c1 : Z) (x y : Q) :
  (c0 < c1)%Z -> x <= y ->
  (x - inject_Z c0) / (inject_Z c1 - inject_Z c0)
  <= (y - inject_Z c0) / (inject_Z c1 - inject_Z c0).
Proof.
  intros Hc Hxy.
  assert (Hd : 0 < inject_Z c1 - inject_Z c0).
  { rewrite Zlt_Qlt in Hc. lra. }
  unfold Qdiv. apply Qmult_le_compat_r; [lra|].
  apply Qlt_le_weak, Qinv_lt_0_compat, Hd.
Qed.

Lemma segment_value_lower c0 n0 c1 n1 cv :
  (c0 < c1)%Z -> (n0 <= n1)%Z -> inject_Z c0 <= cv -> cv <= inject_Z c1 ->
  (n0 <= segment_value c0 n0 c1 n1 cv)%Z.
Proof.
  intros Hc Hn H0 H1. unfold segment_value.
  destruct (frac_bounds c0 c1 cv Hc H0 H1) as [Hf0 Hf1].
  set (f := (cv - inject_Z c0) / (inject_Z c1 - inject_Z c0)) in *.
  rewrite <- (Qceiling_Z n0) at 1. apply Qceiling_resp_le.
  rewrite Zle_Qle in Hn. nra.
Qed.

Lemma segment_value_upper c0 n0 c1 n1 cv :
  (c0 < c1)%Z -> (n0 <= n1)%Z -> inject_Z c0 <= cv -> cv <= inject_Z c1 ->
  (segment_value c0 n0 c1 n1 cv <= n1)%Z.
Proof.
  intros Hc Hn H0 H1. unfold segment_value.
  destruct (frac_bounds c0 c1 cv Hc H0 H1) as [Hf0 Hf1].
  set (f := (cv - inject_Z c0) / (inject_Z c1 - inject_Z c0)) in *.
  rewrite <- (Qceiling_Z n1) at 2. apply Qceiling_resp_le.
  rewrite Zle_Qle in Hn. nra.
Qed.

Lemma segment_value_right c0 n0 c1 n1 cv :
  (c0 < c1)%Z -> cv == inject_Z c1 -> segment_value c0 n0 c1 n1 cv = n1.
Proof.
  intros Hc E. unfold segment_value.
  rewrite <- (Qceiling_Z n1) at 2. apply Qceiling_comp.
  rewrite E.
  assert (Hd : ~ inject_Z c1 - inject_Z c0 == 0).
  { rewrite Zlt_Qlt in Hc. lra. }
  field. exact Hd.
Qed.

Lemma segment_value_mono c0 n0 c1 n1 x y :
  (c0 < c1)%Z -> (n0 <= n1)%Z -> x <= y ->
  (segment_value c0 n0 c1 n1 x <= segment_value c0 n0 c1 n1 y)%Z.
Proof.
  intros Hc Hn Hxy. unfold segment_value. apply Qceiling_resp_le.
  pose proof (frac_mono c0 c1 x y Hc Hxy) as Hf.
  rewrite Zle_Qle in Hn.
  set (fx := (x - inject_Z c0) / (inject_Z c1 - inject_Z c0)) in *.
  set (fy := (y - inject_Z c0) / (inject_Z c1 - inject_Z c0)) in *.
  nra.
Qed.

Lemma segment_value_comp c0 n0 c1 n1 x y :
  x == y -> segment_value c0 n0 c1 n1 x = segment_value c0 n0 c1 n1 y.
Proof.
  intro E. unfold segment_value. apply Qceiling_comp. rewrite E. reflexivity.
Qed.

End InterpolationFacts.

Module ScanFacts.
Import SampleSizeAgent Spec TableProps InterpolationFacts.

Ltac qbool :=
  repeat match goal with
  | H : Qleb _ _ = true |- _ => apply Qleb_le in H
  | H : Qleb _ _ = false |- _ => apply Qleb_gt in H
  | H : Qltb _ _ = true |- _ => apply Qltb_lt in H
  | H : Qltb _ _ = false |- _ => apply Qltb_ge in H
  | H : (_ && _)%bool = true |- _ => apply andb_true_iff in H; destruct H
  | H : (_ <? _)%Z = true |- _ => apply Z.ltb_lt in H
  | H : (_ <=? _)%Z = true |- _ => apply Z.leb_le in H
  end.

Lemma interpolate_unfold t cv :
  _interpolate_table t cv = interpolate_items (sorted_items t) cv.
Proof. reflexivity. Qed.

Lemma scan_unfold c0 n0 c1 n1 tl cv :
  scan_segments ((c0, n0) :: (c1, n1) :: tl) cv
  = if Qleb (inject_Z c0) cv && Qleb cv (inject_Z c1)
    then Some (Z.max MIN_SUBJECTS (segment_value c0 n0 c1 n1 cv))
    else scan_segments ((c1, n1) :: tl) cv.
Proof. reflexivity. Qed.

Lemma last_indep {A : Type} (l : list A) (d d' : A) :
  l <> [] -> last l d = last l d'.
Proof.
  induction l as [|x [|y tl] IH]; intro H; [contradiction | reflexivity |].
  change (last (y :: tl) d = last (y :: tl) d'). apply IH. discriminate.
Qed.

Lemma last_cons {A : Type} (x : A) (l : list A) (d : A) :
  l <> [] -> last (x :: l) d = last l d.
Proof. destruct l; [contradiction | reflexivity]. Qed.

(** A segment is only found at or after the first breakpoint. *)
Lemma scan_ge_head items c0 n0 cv n :
  keys_increasing ((c0, n0) :: items) = true ->
  scan_segments ((c0, n0) :: items) cv = Some n ->
  inject_Z c0 <= cv.
Proof.
  revert c0 n0. induction items as [|[c1 n1] tl IH]; intros c0 n0 Hk Hs.
  - discriminate.
  - rewrite scan_unfold in Hs. cbn [keys_increasing] in Hk. qbool.
    destruct (Qleb (inject_Z c0) cv) eqn:E0; qbool; [assumption|].
    cbn [andb] in Hs. specialize (IH c1 n1 H0 Hs).
    rewrite Zlt_Qlt in H. lra.
Qed.

(** Between the first and the last breakpoint a segment is found. *)
Lemma scan_total items c0 n0 cv d :
  keys_increasing ((c0, n0) :: items) = true ->
  items <> [] ->
  inject_Z c0 <= cv ->
  cv <= inject_Z (fst (last ((c0, n0) :: items) d)) ->
  exists n, scan_segments ((c0, n0) :: items) cv = Some n.
Proof.
  revert c0 n0. induction items as [|[c1 n1] tl IH]; intros c0 n0 Hk Hne H0 H1.
  - contradiction.
  - rewrite scan_unfold. cbn [keys_increasing] in Hk.
    apply andb_true_iff in Hk. destruct Hk as [Hc Hk].
    destruct (Qleb (inject_Z c0) cv) eqn:E0; qbool; [|lra].
    destruct (Qleb cv (inject_Z c1)) eqn:E1; qbool; cbn [andb].
    + eauto.
    + rewrite last_cons in H1 by discriminate.
      destruct tl as [|p tl'].
      * cbn in H1. lra.
      * apply IH; [assumption | discriminate | lra | exact H1].
Qed.

(** Values do not fall along a table that rises after [lo], from a
    breakpoint at or beyond [lo] on. *)
Lemma rising_last lo items c0 n0 d :
  keys_increasing ((c0, n0) :: items) = true ->
  rising_after lo ((c0, n0) :: items) ->
  lo <= inject_Z c0 ->
  (n0 <= snd (last ((c0, n0) :: items) d))%Z.
Proof.
  revert c0 n0. induction items as [|[c1 n1] tl IH]; intros c0 n0 Hk Hr Hlo.
  - cbn. lia.
  - cbn [keys_increasing] in Hk.
    apply andb_true_iff in Hk. destruct Hk as [Hc Hk]. qbool.
    destruct Hr as [Hr0 Hr]. rewrite Zlt_Qlt in Hc.
    assert (n0 <= n1)%Z by (apply Hr0; lra).
    specialize (IH c1 n1 Hk Hr ltac:(lra)).
    rewrite last_cons by discriminate. lia.
Qed.

(** What a found segment gives is at least the first value... *)
Lemma scan_lower lo items c0 n0 cv n :
  keys_increasing ((c0, n0) :: items) = true ->
  rising_after lo ((c0, n0) :: items) ->
  lo <= inject_Z c0 ->
  scan_segments ((c0, n0) :: items) cv = Some n ->
  (Z.max MIN_SUBJECTS n0 <= n)%Z.
Proof.
  revert c0 n0. induction items as [|[c1 n1] tl IH]; intros c0 n0 Hk Hr Hlo Hs.
  - discriminate.
  - rewrite scan_unfold in Hs. cbn [keys_increasing] in Hk.
    apply andb_true_iff in Hk. destruct Hk as [Hc Hk]. qbool.
    destruct Hr as [Hr0 Hr].
    assert (Hc' := Hc). rewrite Zlt_Qlt in Hc'.
    assert (Hn : (n0 <= n1)%Z) by (apply Hr0; lra).
    destruct (Qleb (inject_Z c0) cv && Qleb cv (inject_Z c1)) eqn:E.
    + qbool. injection Hs as <-.
      pose proof (segment_value_lower c0 n0 c1 n1 cv Hc Hn H H0). lia.
    + specialize (IH c1 n1 Hk Hr ltac:(lra) Hs). lia.
Qed.

(** ... and, at a query at or beyond [lo], at most the last value. *)
Lemma scan_upper items c0 n0 cv n d :
  keys_increasing ((c0, n0) :: items) = true ->
  rising_after cv ((c0, n0) :: items) ->
  scan_segments ((c0, n0) :: items) cv = Some n ->
  (n <= Z.max MIN_SUBJECTS (snd (last ((c0, n0) :: items) d)))%Z.
Proof.
  revert c0 n0. induction items as [|[c1 n1] tl IH]; intros c0 n0 Hk Hr Hs.
  - discriminate.
  - rewrite scan_unfold in Hs. assert (Hk0 := Hk). cbn [keys_increasing] in Hk.
    apply andb_true_iff in Hk. destruct Hk as [Hc Hk]. qbool.
    destruct Hr as [Hr0 Hr].
    rewrite last_cons by discriminate.
    destruct (Qleb (inject_Z c0) cv && Qleb cv (inject_Z c1)) eqn:E.
    + qbool. injection Hs as <-.
      assert (Hl : (n1 <= snd (last ((c1, n1) :: tl) d))%Z).
      { apply (rising_last cv); [assumption | assumption | assumption]. }
      destruct (Qlt_le_dec cv (inject_Z c1)) as [Hlt | Hge].
      * pose proof (segment_value_upper c0 n0 c1 n1 cv Hc (Hr0 Hlt) H H0). lia.
      * rewrite (segment_value_right c0 n0 c1 n1 cv Hc) by lra. lia.
    + apply IH; assumption.
Qed.

(** Within the segments of a table that rises after [cv1], the value
    found does not fall from [cv1] to a larger [cv2]. *)
Lemma scan_mono items c0 n0 cv1 cv2 a b :
  keys_increasing ((c0, n0) :: items) = true ->
  rising_after cv1 ((c0, n0) :: items) ->
  cv1 <= cv2 ->
  scan_segments ((c0, n0) :: items) cv1 = Some a ->
  scan_segments ((c0, n0) :: items) cv2 = Some b ->
  (a <= b)%Z.
Proof.
  revert c0 n0. induction items as [|[c1 n1] tl IH];
    intros c0 n0 Hk Hr Hle Ha Hb.
  - discriminate.
  - rewrite scan_unfold in Ha, Hb. cbn [keys_increasing] in Hk.
    apply andb_true_iff in Hk. destruct Hk as [Hc Hk]. qbool.
    destruct Hr as [Hr0 Hr].
    destruct (Qleb (inject_Z c0) cv1 && Qleb cv1 (inject_Z c1)) eqn:E1.
    + qbool. injection Ha as <-.
      destruct (Qleb (inject_Z c0) cv2 && Qleb cv2 (inject_Z c1)) eqn:E2.
      * qbool. injection Hb as <-.
        destruct (Qlt_le_dec cv1 (inject_Z c1)) as [Hlt | Hge].
        -- pose proof (segment_value_mono c0 n0 c1 n1 cv1 cv2 Hc (Hr0 Hlt) Hle).
           lia.
        -- rewrite (segment_value_comp c0 n0 c1 n1 cv1 cv2) by lra. lia.
      * pose proof (scan_lower cv1 tl c1 n1 cv2 b Hk Hr H0 Hb) as Hlow.
        destruct (Qlt_le_dec cv1 (inject_Z c1)) as [Hlt | Hge].
        -- pose proof (segment_value_upper c0 n0 c1 n1 cv1 Hc (Hr0 Hlt) H H0).
           lia.
        -- rewrite (segment_value_right c0 n0 c1 n1 cv1 Hc) by lra. lia.
    + pose proof (scan_ge_head tl c1 n1 cv1 a Hk Ha) as Hge.
      assert (Hc' := Hc). rewrite Zlt_Qlt in Hc'.
      assert (E2 : Qleb (inject_Z c0) cv2 && Qleb cv2 (inject_Z c1) = false).
      { apply andb_false_iff in E1. apply andb_false_iff.
        destruct E1 as [E1 | E1]; qbool; [lra|].
        right. apply Qleb_gt. lra. }
      rewrite E2 in Hb. apply (IH c1 n1); assumption.
Qed.

End ScanFacts.

Module TableFacts.
Import SampleSizeAgent Spec TableProps InterpolationFacts ScanFacts.

Lemma keys_increasing_tail x items :
  keys_increasing (x :: items) = true -> keys_increasing items = true.
Proof.
  destruct x as [c0 n0], items as [|[c1 n1] tl]; [reflexivity|].
  cbn [keys_increasing]. intro H. apply andb_true_iff in H. apply H.
Qed.

Lemma keys_increasing_app pre items :
  keys_increasing (pre ++ items) = true -> keys_increasing items = true.
Proof.
  induction pre as [|p pre IH]; [trivial|].
  intro H. apply IH. apply (keys_increasing_tail p). exact H.
Qed.

Lemma head_le_last items c0 n0 d :
  keys_increasing ((c0, n0) :: items) = true ->
  (c0 <= fst (last ((c0, n0) :: items) d))%Z.
Proof.
  revert c0 n0. induction items as [|[c1 n1] tl IH]; intros c0 n0 Hk.
  - cbn. lia.
  - rewrite last_cons by discriminate. cbn [keys_increasing] in Hk.
    apply andb_true_iff in Hk. destruct Hk as [Hc Hk]. qbool.
    specialize (IH c1 n1 Hk). lia.
Qed.

Lemma head_le_inner pre c0 n0 rest d :
  keys_increasing (pre ++ (c0, n0) :: rest) = true ->
  (fst (hd d (pre ++ (c0, n0) :: rest)) <= c0)%Z.
Proof.
  induction pre as [|[cp np] pre IH]; intro Hk.
  - cbn. lia.
  - cbn [app hd fst].
    assert (Hk' := keys_increasing_tail _ _ Hk).
    specialize (IH Hk').
    change (((cp, np) :: pre) ++ (c0, n0) :: rest)
      with ((cp, np) :: (pre ++ (c0, n0) :: rest)) in Hk.
    destruct (pre ++ (c0, n0) :: rest) as [|[cq nq] tl] eqn:E.
    + destruct pre; discriminate.
    + cbn [keys_increasing] in Hk. apply andb_true_iff in Hk.
      destruct Hk as [Hc _]. qbool. cbn [hd fst] in IH. lia.
Qed.

Lemma last_app_cons {A : Type} (pre : list A) (x : A) (rest : list A) (d : A) :
  last (pre ++ x :: rest) d = last (x :: rest) d.
Proof.
  induction pre as [|p pre IH]; [reflexivity|].
  change ((p :: pre) ++ x :: rest) with (p :: (pre ++ x :: rest)).
  rewrite last_cons; [exact IH | destruct pre; discriminate].
Qed.

(** Strictly between two neighbouring breakpoints the loop returns at
    their segment. *)
Lemma scan_neighbours pre c0 n0 c1 n1 post cv :
  keys_increasing (pre ++ (c0, n0) :: (c1, n1) :: post) = true ->
  inject_Z c0 < cv -> cv < inject_Z c1 ->
  scan_segments (pre ++ (c0, n0) :: (c1, n1) :: post) cv
  = Some (Z.max MIN_SUBJECTS (segment_value c0 n0 c1 n1 cv)).
Proof.
  induction pre as [|[cp np] pre IH]; intros Hk H0 H1.
  - cbn [app]. rewrite scan_unfold.
    assert (E0 : Qleb (inject_Z c0) cv = true) by (apply Qleb_le; lra).
    assert (E1 : Qleb cv (inject_Z c1) = true) by (apply Qleb_le; lra).
    rewrite E0, E1. reflexivity.
  - assert (Hk' := keys_increasing_tail _ _ Hk).
    pose proof (head_le_inner pre c0 n0 ((c1, n1) :: post) (0, 0)%Z Hk') as Hh.
    specialize (IH Hk' H0 H1).
    change (((cp, np) :: pre) ++ (c0, n0) :: (c1, n1) :: post)
      with ((cp, np) :: (pre ++ (c0, n0) :: (c1, n1) :: post)).
    destruct (pre ++ (c0, n0) :: (c1, n1) :: post) as [|[cq nq] tl] eqn:E.
    + destruct pre; discriminate.
    + rewrite scan_unfold. cbn [hd fst] in Hh. rewrite Zle_Qle in Hh.
      assert (E1 : Qleb cv (inject_Z cq) = false) by (apply Qleb_gt; lra).
      rewrite E1, andb_false_r. exact IH.
Qed.

(** ** The three regions of [_interpolate_table] *)

Lemma interpolate_low items c0 n0 cv :
  cv <= inject_Z c0 ->
  interpolate_items ((c0, n0) :: items) cv = Ret (Z.max MIN_SUBJECTS n0).
Proof.
  intro H. unfold interpolate_items.
  destruct (last ((c0, n0) :: items) (c0, n0)) as [cl nl].
  apply Qleb_le in H. rewrite H. reflexivity.
Qed.

Lemma interpolate_high items c0 n0 cv :
  inject_Z c0 < cv ->
  inject_Z (fst (last ((c0, n0) :: items) (c0, n0))) <= cv ->
  interpolate_items ((c0, n0) :: items) cv
  = Ret (snd (last ((c0, n0) :: items) (c0, n0))).
Proof.
  intros H0 H1. unfold interpolate_items.
  destruct (last ((c0, n0) :: items) (c0, n0)) as [cl nl]. cbn [fst snd] in *.
  apply Qleb_gt in H0. apply Qleb_le in H1. rewrite H0, H1. reflexivity.
Qed.

Lemma interpolate_inner items c0 n0 cv :
  inject_Z c0 < cv ->
  cv < inject_Z (fst (last ((c0, n0) :: items) (c0, n0))) ->
  interpolate_items ((c0, n0) :: items) cv
  = match scan_segments ((c0, n0) :: items) cv with
    | Some n => Ret n
    | None =>
        Ret (Z.max MIN_SUBJECTS (snd (last ((c0, n0) :: items) (c0, n0))))
    end.
Proof.
  intros H0 H1. unfold interpolate_items.
  destruct (last ((c0, n0) :: items) (c0, n0)) as [cl nl]. cbn [fst snd] in *.
  apply Qleb_gt in H0. apply Qleb_gt in H1. rewrite H0, H1. reflexivity.
Qed.

Lemma interpolate_neighbours items c0 n0 c1 n1 pre post cv :
  keys_increasing items = true ->
  items = pre ++ (c0, n0) :: (c1, n1) :: post ->
  inject_Z c0 < cv -> cv < inject_Z c1 ->
  interpolate_items items cv
  = Ret (Z.max MIN_SUBJECTS (segment_value c0 n0 c1 n1 cv)).
Proof.
  intros Hk E H0 H1.
  pose proof (scan_neighbours pre c0 n0 c1 n1 post cv) as Hs.
  rewrite <- E in Hs. specialize (Hs Hk H0 H1).
  destruct items as [|[cf nf] tl]; [destruct pre; discriminate|].
  assert (Hf : (cf <= c0)%Z).
  { pose proof (head_le_inner pre c0 n0 ((c1, n1) :: post) (0, 0)%Z) as Hh.
    rewrite <- E in Hh. apply Hh. exact Hk. }
  assert (Hl : (c1 <= fst (last ((cf, nf) :: tl) (cf, nf)))%Z).
  { rewrite E. rewrite last_app_cons. rewrite last_cons by discriminate.
    apply head_le_last.
    rewrite E in Hk. apply keys_increasing_app in Hk.
    apply keys_increasing_tail in Hk. exact Hk. }
  rewrite Zle_Qle in Hf, Hl.
  rewrite interpolate_inner by lra. rewrite Hs. reflexivity.
Qed.

(** The result is at least the minimum when the highest value is. *)
Lemma interpolate_returns_min items c0 n0 cv :
  keys_increasing ((c0, n0) :: items) = true ->
  (MIN_SUBJECTS <= snd (last ((c0, n0) :: items) (c0, n0)))%Z ->
  exists n, interpolate_items ((c0, n0) :: items) cv = Ret n
            /\ (MIN_SUBJECTS <= n)%Z.
Proof.
  intros Hk Hl.
  destruct (Qlt_le_dec (inject_Z c0) cv) as [H0 | H0].
  - destruct (Qlt_le_dec cv (inject_Z (fst (last ((c0, n0) :: items) (c0, n0)))))
      as [H1 | H1].
    + rewrite interpolate_inner by assumption.
      destruct (scan_segments ((c0, n0) :: items) cv) as [n|] eqn:Es.
      * exists n. split; [reflexivity|].
        destruct items as [|[c1 n1] tl]; [discriminate|].
        clear - Es. revert c0 n0 c1 n1 Es.
        induction tl as [|[c2 n2] tl IH]; intros c0 n0 c1 n1 Es.
        -- rewrite scan_unfold in Es.
           destruct (Qleb (inject_Z c0) cv && Qleb cv (inject_Z c1));
             [injection Es as <-; lia | discriminate].
        -- rewrite scan_unfold in Es.
           destruct (Qleb (inject_Z c0) cv && Qleb cv (inject_Z c1));
             [injection Es as <-; lia | apply (IH c1 n1 c2 n2 Es)].
      * eexists. split; [reflexivity | lia].
    + rewrite interpolate_high by assumption. eauto.
  - rewrite interpolate_low by assumption. eexists. split; [reflexivity | lia].
Qed.

(** ** Monotonicity of the base size *)

Lemma Ret_inj {A : Type} (x y : A) : Ret x = Ret y -> x = y.
Proof. congruence. Qed.

Lemma interpolate_mono items c0 n0 cv1 cv2 a b :
  keys_increasing ((c0, n0) :: items) = true ->
  rising_after cv1 ((c0, n0) :: items) ->
  cv1 <= cv2 ->
  interpolate_items ((c0, n0) :: items) cv1 = Ret a ->
  interpolate_items ((c0, n0) :: items) cv2 = Ret b ->
  (Z.max MIN_SUBJECTS a <= Z.max MIN_SUBJECTS b)%Z.
Proof.
  intros Hk Hr Hle Ha Hb.
  pose proof (head_le_last items c0 n0 (c0, n0) Hk) as Hhl.
  rewrite Zle_Qle in Hhl.
  destruct (Qlt_le_dec (inject_Z c0) cv1) as [H1 | H1].
  - (* cv1 beyond the first breakpoint *)
    assert (H2 : inject_Z c0 < cv2) by lra.
    destruct (Qlt_le_dec cv1 (inject_Z (fst (last ((c0, n0) :: items) (c0, n0)))))
      as [L1 | L1].
    + rewrite interpolate_inner in Ha by assumption.
      assert (Hne : items <> []).
      { intro E. subst items. cbn [last fst] in L1. lra. }
      destruct (scan_total items c0 n0 cv1 (c0, n0) Hk Hne) as [a' Ea];
        [lra | apply Qlt_le_weak; exact L1 |].
      rewrite Ea in Ha. apply Ret_inj in Ha; subst a.
      pose proof (scan_upper items c0 n0 cv1 a' (c0, n0) Hk Hr Ea) as Hup.
      destruct (Qlt_le_dec cv2 (inject_Z (fst (last ((c0, n0) :: items) (c0, n0)))))
        as [L2 | L2].
      * rewrite interpolate_inner in Hb by assumption.
        destruct (scan_segments ((c0, n0) :: items) cv2) as [b'|] eqn:Eb.
        -- apply Ret_inj in Hb; subst b.
           pose proof (scan_mono items c0 n0 cv1 cv2 a' b' Hk Hr Hle Ea Eb). lia.
        -- apply Ret_inj in Hb; subst b. lia.
      * rewrite interpolate_high in Hb by assumption.
        apply Ret_inj in Hb; subst b. lia.
    + rewrite interpolate_high in Ha by assumption.
      rewrite interpolate_high in Hb by (try assumption; lra).
      apply Ret_inj in Ha, Hb. subst a b. lia.
  - (* cv1 at or below the first breakpoint *)
    rewrite interpolate_low in Ha by assumption.
    apply Ret_inj in Ha; subst a.
    pose proof (rising_last cv1 items c0 n0 (c0, n0) Hk Hr H1) as Hrl.
    destruct (Qlt_le_dec (inject_Z c0) cv2) as [H2 | H2].
    + destruct (Qlt_le_dec cv2 (inject_Z (fst (last ((c0, n0) :: items) (c0, n0)))))
        as [L2 | L2].
      * rewrite interpolate_inner in Hb by assumption.
        destruct (scan_segments ((c0, n0) :: items) cv2) as [b'|] eqn:Eb.
        -- apply Ret_inj in Hb; subst b.
           pose proof (scan_lower cv1 items c0 n0 cv2 b' Hk Hr H1 Eb). lia.
        -- apply Ret_inj in Hb; subst b. lia.
      * rewrite interpolate_high in Hb by assumption.
        apply Ret_inj in Hb; subst b. lia.
    + rewrite interpolate_low in Hb by assumption.
      apply Ret_inj in Hb; subst b. lia.
Qed.

Lemma rising_after_all items lo :
  rising items = true -> rising_after lo items.
Proof.
  induction items as [|[c0 n0] [|[c1 n1] tl] IH]; intro H; try exact I.
  cbn [rising] in H. apply andb_true_iff in H. destruct H as [Hn H]. qbool.
  split; [intros _; exact Hn | apply IH; exact H].
Qed.

Lemma rising_after_from items from lo :
  rising_from from items = true -> inject_Z from <= lo ->
  rising_after lo items.
Proof.
  induction items as [|[c0 n0] [|[c1 n1] tl] IH]; intros H Hlo; try exact I.
  cbn [rising_from] in H. apply andb_true_iff in H. destruct H as [Hn H].
  split; [|apply IH; assumption].
  intro Hc. apply orb_true_iff in Hn. destruct Hn as [Hn | Hn]; qbool.
  - rewrite Zle_Qle in Hn. lra.
  - exact Hn.
Qed.

End TableFacts.

Module ReferenceTableFacts.
Import SampleSizeAgent Spec TableProps InterpolationFacts ScanFacts TableFacts.

Lemma reference_tables_well_formed :
  forallb well_formed reference_tables = true.
Proof. vm_compute. reflexivity. Qed.

Lemma well_formed_in t :
  In t reference_tables -> well_formed t = true.
Proof.
  intro H. pose proof reference_tables_well_formed as Hall.
  rewrite forallb_forall in Hall. apply Hall. exact H.
Qed.

(** The shape of a well-formed table. *)
Lemma well_formed_shape t :
  well_formed t = true ->
  exists c0 n0 c1 n1 rest,
    sorted_items t = (c0, n0) :: (c1, n1) :: rest
    /\ keys_increasing (sorted_items t) = true
    /\ (MIN_SUBJECTS <= snd (last (sorted_items t) (c0, n0)))%Z.
Proof.
  unfold well_formed. intro H.
  apply andb_true_iff in H. destruct H as [H Hl].
  apply andb_true_iff in H. destruct H as [Hlen Hk].
  destruct (sorted_items t) as [|[c0 n0] [|[c1 n1] rest]] eqn:E;
    try discriminate.
  exists c0, n0, c1, n1, rest. repeat split; try assumption.
  apply Z.leb_le in Hl.
  rewrite (last_indep _ (c0, n0) (0, 0)%Z) by discriminate. exact Hl.
Qed.

Lemma interpolate_table_returns t cv :
  well_formed t = true ->
  exists n, _interpolate_table t cv = Ret n /\ (MIN_SUBJECTS <= n)%Z.
Proof.
  intro H. destruct (well_formed_shape t H) as (c0 & n0 & c1 & n1 & rest & E & Hk & Hl).
  rewrite interpolate_unfold. rewrite E in *.
  apply interpolate_returns_min; assumption.
Qed.

(** The regions of the interpolation on a well-formed table. *)
Lemma interpolate_table_regions t cv :
  well_formed t = true ->
  (cv <= inject_Z (fst (first_item t)) ->
   _interpolate_table t cv = Ret (Z.max MIN_SUBJECTS (snd (first_item t))))
  /\ (inject_Z (fst (last_item t)) <= cv ->
      _interpolate_table t cv = Ret (snd (last_item t)))
  /\ (forall c0 n0 c1 n1,
         neighbours t c0 n0 c1 n1 ->
         inject_Z c0 < cv -> cv < inject_Z c1 ->
         _interpolate_table t cv
         = Ret (Z.max MIN_SUBJECTS (segment_value c0 n0 c1 n1 cv))).
Proof.
  intro H. destruct (well_formed_shape t H) as (c0 & n0 & c1 & n1 & rest & E & Hk & Hl).
  rewrite interpolate_unfold. unfold first_item, last_item, neighbours.
  split; [|split].
  - rewrite E. cbn [hd fst snd]. apply interpolate_low.
  - rewrite E. intro Hc.
    rewrite (last_indep _ (0, 0)%Z (c0, n0)) in * by discriminate.
    apply interpolate_high; [|exact Hc].
    rewrite E in Hk.
    pose proof (head_le_last rest c1 n1 (c0, n0) (keys_increasing_tail _ _ Hk)) as Hh.
    rewrite last_cons in Hc by discriminate.
    cbn [keys_increasing] in Hk. apply andb_true_iff in Hk.
    destruct Hk as [Hlt _]. apply Z.ltb_lt in Hlt.
    rewrite Zle_Qle in Hh. rewrite Zlt_Qlt in Hlt. lra.
  - intros a na b nb (pre & post & Ep) H0 H1.
    apply (interpolate_neighbours _ a na b nb pre post); assumption.
Qed.

(** Monotonicity of the base size on a well-formed table that rises
    after [cv1]. *)
Lemma n_base_mono t cv1 cv2 :
  well_formed t = true ->
  rising_after cv1 (sorted_items t) ->
  cv1 <= cv2 ->
  exists a b,
    n_base_from t cv1 = Ret a /\ n_base_from t cv2 = Ret b /\ (a <= b)%Z.
Proof.
  intros H Hr Hle.
  destruct (interpolate_table_returns t cv1 H) as (a & Ea & _).
  destruct (interpolate_table_returns t cv2 H) as (b & Eb & _).
  exists (Z.max MIN_SUBJECTS a), (Z.max MIN_SUBJECTS b).
  unfold n_base_from. rewrite Ea, Eb. cbn [bind].
  repeat split.
  destruct (well_formed_shape t H) as (c0 & n0 & c1 & n1 & rest & E & Hk & _).
  rewrite interpolate_unfold in Ea, Eb. rewrite E in *.
  apply (interpolate_mono ((c1, n1) :: rest) c0 n0 cv1 cv2); assumption.
Qed.

Lemma rising_tables :
  forallb (fun t => rising (sorted_items t)) (unscaled_tables ++ scaled_tables)
  = true.
Proof. vm_compute. reflexivity. Qed.

Lemma nti_tables_rising_from_12 :
  forallb (fun t => rising_from 12 (sorted_items t)) nti_tables = true.
Proof. vm_compute. reflexivity. Qed.




(** C5. On each unscaled (TOST) and scaled-limits table the base size
    is non-decreasing in the CV; on the narrow-therapeutic-index tables
    it is non-decreasing from CV 12 upward. *)
Theorem n_base_monotone (t : table) (cv1 cv2 : Q) :
  cv1 <= cv2 ->
  In t unscaled_tables \/ In t scaled_tables
  \/ (In t nti_tables /\ 12 <= cv1) ->
  exists a b,
    n_base_from t cv1 = Ret a /\ n_base_from t cv2 = Ret b /\ (a <= b)%Z.
Proof.
  intros Hle Hin.
  assert (Hwf : well_formed t = true).
  { apply well_formed_in. unfold reference_tables.
    rewrite !in_app_iff. tauto. }
  apply n_base_mono; [exact Hwf | | exact Hle].
  assert (Hcases : In t (unscaled_tables ++ scaled_tables)
                   \/ (In t nti_tables /\ 12 <= cv1)).
  { rewrite in_app_iff. tauto. }
  destruct Hcases as [Hr | [Hn H12]].
  - apply rising_after_all.
    pose proof rising_tables as Hall. rewrite forallb_forall in Hall.
    apply (Hall t Hr).
  - apply (rising_after_from _ 12%Z); [|exact H12].
    pose proof nti_tables_rising_from_12 as Hall.
    rewrite forallb_forall in Hall. apply (Hall t Hn).
Qed.

Lemma n_base_monotone_witness :
  exists a b,
    n_base_from NTID_2x2x4_0975 12 = Ret a
    /\ n_base_from NTID_2x2x4_0975 20 = Ret b /\ (a <= b)%Z.
Proof.
  apply (n_base_monotone NTID_2x2x4_0975 12 20).
  - vm_compute. discriminate.
  - right. right. split; [cbn; left; reflexivity | vm_compute; discriminate].
Defined.

(** C5, as stated, fails on the narrow-therapeutic-index table: the
    base size falls from 54 at CV 4 to 34 at CV 5. *)
Lemma n_base_not_monotone_nti :
  ~ (forall t cv1 cv2 a b,
        In t reference_tables -> cv1 <= cv2 ->
        n_base_from t cv1 = Ret a -> n_base_from t cv2 = Ret b ->
        (a <= b)%Z).
Proof.
  intro H.
  specialize (H NTID_2x2x4_0975 4 5 54%Z 34%Z).
  assert (Hin : In NTID_2x2x4_0975 reference_tables).
  { unfold reference_tables. rewrite !in_app_iff. right. right.
    cbn. left. reflexivity. }
  assert (Hle : 4 <= 5) by (vm_compute; discriminate).
  specialize (H Hin Hle eq_refl eq_refl). lia.
Qed.

End ReferenceTableFacts.

Module SampleSizeFacts.
Import Design Model SampleSizeAgent Spec TableProps Inputs.
Import ScanFacts TableFacts ReferenceTableFacts.

(** ** Method selection *)

Lemma n_base_from_returns t cv :
  In t reference_tables ->
  exists n, n_base_from t cv = Ret n /\ (MIN_SUBJECTS <= n)%Z.
Proof.
  intro Hin.
  destruct (interpolate_table_returns t cv (well_formed_in t Hin)) as (n & E & Hn).
  exists (Z.max MIN_SUBJECTS n). unfold n_base_from. rewrite E.
  split; [reflexivity | lia].
Qed.

Lemma calculate_n_base_table cv gmr n_periods is_hvd is_nti :
  _calculate_n_base cv gmr n_periods is_hvd is_nti
  = n_base_from (table_read cv gmr n_periods is_hvd is_nti) cv.
Proof.
  unfold _calculate_n_base, table_read, n_base_from.
  destruct is_nti; [reflexivity|].
  destruct (is_hvd && Qleb CV_HVD_THRESHOLD cv); reflexivity.
Qed.

Lemma table_read_reference cv gmr n_periods is_hvd is_nti :
  In (table_read cv gmr n_periods is_hvd is_nti) reference_tables.
Proof.
  unfold table_read, reference_tables, unscaled_tables, scaled_tables,
    nti_tables.
  destruct is_nti, (is_hvd && Qleb CV_HVD_THRESHOLD cv), (use_0975 gmr),
    (use_090 gmr), (4 <=? n_periods)%Z, (n_periods =? 3)%Z,
    (n_periods =? 1)%Z; cbn; tauto.
Qed.

Lemma calculate_n_base_returns cv gmr n_periods is_hvd is_nti :
  exists n, _calculate_n_base cv gmr n_periods is_hvd is_nti = Ret n
            /\ (MIN_SUBJECTS <= n)%Z.
Proof.
  rewrite calculate_n_base_table. apply n_base_from_returns.
  apply table_read_reference.
Qed.




(** ** The agent *)

Lemma ceil_div_returns x y :
  ~ y == 0 -> ceil_div x y = Ret (Qceiling (x / y)).
Proof.
  intro H. unfold ceil_div. apply Qeqb_neq in H. rewrite H. reflexivity.
Qed.


(** The locals of [run] for rates in range. *)
Lemma run_locals_returns inp :
  ~ 1 - dropout_rate_of inp == 0 ->
  ~ 1 - screenfail_rate_of inp == 0 ->
  exists l,
    run_locals inp = Ret l
    /\ (MIN_SUBJECTS <= l_n_base l)%Z
    /\ l_cv_intra l = effective_cv (in_cv_intra inp)
    /\ l_is_hvd l
       = (if Qleb CV_HVD_THRESHOLD (effective_cv (in_cv_intra inp))
          then true else get_or (in_is_hvd inp) false)
    /\ l_needs_adaptive l = (max_base_subjects_of inp <? l_n_base l)%Z
    /\ l_n_with_dropout l
       = Qceiling (inject_Z (l_n_base l) / (1 - dropout_rate_of inp))
    /\ l_n_with_screenfail l
       = Qceiling (inject_Z (l_n_with_dropout l)
                   / (1 - screenfail_rate_of inp))
    /\ l_n_total l = Z.max (min_subjects_of inp) (l_n_with_screenfail l).
Proof.
  intros Hd Hs. unfold run_locals.
  match goal with
  | |- context [_calculate_n_base ?cv ?g ?n ?h ?i] =>
      destruct (calculate_n_base_returns cv g n h i) as (nb & E & Hnb);
      rewrite E
  end.
  cbn [bind].
  fold (dropout_rate_of inp). fold (screenfail_rate_of inp).
  rewrite (ceil_div_returns _ _ Hd). cbn [bind].
  rewrite (ceil_div_returns _ _ Hs). cbn [bind].
  eexists. split; [reflexivity|].
  cbn [l_n_base l_cv_intra l_is_hvd l_needs_adaptive l_n_with_dropout
       l_n_with_screenfail l_n_total].
  repeat split. exact Hnb.
Qed.

(** [run] is its locals wrapped in the model: the instance holds the
    declared fields and nothing else. *)
Lemma run_instance inp l :
  run_locals inp = Ret l ->
  exists power alpha gmr theta dr sr desc,
    run inp
    = Ret [ ("n_base", VInt (l_n_base l));
            ("n_with_dropout", VInt (l_n_with_dropout l));
            ("n_with_screenfail", VInt (l_n_with_screenfail l));
            ("n_total", VInt (l_n_total l));
            ("cv_intra_used", VFloat (l_cv_intra l));
            ("power", VFloat power);
            ("alpha", VFloat alpha);
            ("gmr", VFloat gmr);
            ("theta", VFloat theta);
            ("dropout_rate", VFloat dr);
            ("screenfail_rate", VFloat sr);
            ("blood_volume_ml", VFloat (l_blood_volume l));
            ("blood_volume_ok", VBool (l_blood_ok l));
            ("calculation_description", VText desc) ]
    /\ desc_is_hvd desc = l_is_hvd l.
Proof.
  intro E. unfold run. rewrite E. cbn [bind].
  do 7 eexists. split; reflexivity.
Qed.

End SampleSizeFacts.

Module AgentFacts.
Import Design Model SampleSizeAgent Spec TableProps Inputs.
Import ScanFacts TableFacts ReferenceTableFacts SampleSizeFacts.



(** The [max_base_subjects] override only enters [needs_adaptive],
    which the model drops. *)
Lemma max_base_subjects_unused inp m :
  run (with_max_base_subjects inp m) = run inp.
Proof.
  unfold run, run_locals, with_max_base_subjects.
  cbn [in_cv_intra in_design in_is_hvd in_overrides o_power o_alpha o_gmr
       o_theta o_screenfail_rate o_dropout_rate o_min_subjects
       o_blood_per_point_ml o_max_blood_ml o_max_base_subjects].
  destruct (_calculate_n_base _ _ _ _ _) as [nb|e]; [|reflexivity].
  cbn [bind].
  destruct (ceil_div _ _) as [nd|e]; [|reflexivity]. cbn [bind].
  destruct (ceil_div _ _) as [ns|e]; [|reflexivity]. cbn [bind].
  reflexivity.
Qed.

(** C9. For rates other than 1 the agent returns a plan, and the plan
    has no [needs_adaptive] field: the model does not declare it and the
    keyword is ignored, so reading it raises [AttributeError]; the
    [max_base_subjects] override changes nothing in the plan.  With
    CV 50 and two periods the base size is 116, above the limit of 80,
    and the plan carries no flag. *)
Theorem needs_adaptive_not_carried (inp : Input) :
  ~ 1 - dropout_rate_of inp == 0 ->
  ~ 1 - screenfail_rate_of inp == 0 ->
  (exists r,
      run inp = Ret r
      /\ getattr r "needs_adaptive" = Raise (AttributeError "needs_adaptive")
      /\ forall m, run (with_max_base_subjects inp m) = Ret r)
  /\ (exists r,
         run scenario_large = Ret r
         /\ getattr r "n_base" = Ret (VInt 116)
         /\ (MAX_BASE_SUBJECTS < 116)%Z
         /\ getattr r "needs_adaptive"
            = Raise (AttributeError "needs_adaptive")).
Proof.
  intros Hd Hs.
  split.
  - destruct (run_locals_returns inp Hd Hs) as (l & E & _).
    destruct (run_instance inp l E)
      as (power & alpha & gmr & theta & dr & sr & desc & Er & _).
    eexists. split; [exact Er|]. split; [reflexivity|].
    intro m. rewrite max_base_subjects_unused. exact Er.
  - eexists. split; [vm_compute; reflexivity|].
    repeat split; reflexivity.
Qed.

Lemma needs_adaptive_not_carried_witness :
  (exists r,
      run scenario_large = Ret r
      /\ getattr r "needs_adaptive" = Raise (AttributeError "needs_adaptive")
      /\ forall m, run (with_max_base_subjects scenario_large m) = Ret r)
  /\ (exists r,
         run scenario_large = Ret r
         /\ getattr r "n_base" = Ret (VInt 116)
         /\ (MAX_BASE_SUBJECTS < 116)%Z
         /\ getattr r "needs_adaptive"
            = Raise (AttributeError "needs_adaptive")).
Proof.
  apply (needs_adaptive_not_carried scenario_large);
    vm_compute; discriminate.
Defined.




End AgentFacts.

Module BloodFacts.
Import BloodSampling ScheduleProps.

(** ** Snapping *)

Lemma nearest_in value l x0 :
  In (nearest value x0 l) (x0 :: l).
Proof.
  unfold nearest. revert x0.
  induction l as [|x tl IH]; intro x0.
  - left. reflexivity.
  - cbn [fold_left].
    destruct (Qltb (Qabs' (x - value)) (Qabs' (x0 - value))).
    + destruct (IH x) as [E | H]; [right; left; exact E | right; right; exact H].
    + destruct (IH x0) as [E | H]; [left; exact E | right; right; exact H].
Qed.

Lemma snap_in value grid :
  grid <> [] -> In (_snap_to_grid value grid) grid.
Proof.
  destruct grid as [|x0 tl]; [contradiction|].
  intros _. apply nearest_in.
Qed.

Lemma same_eq a b : same a b = true -> a = b.
Proof.
  unfold same. intro H. apply andb_true_iff in H. destruct H as [Hn Hd].
  apply Z.eqb_eq in Hn. apply Pos.eqb_eq in Hd.
  destruct a, b. cbn in *. subst. reflexivity.
Qed.

Lemma member_in t l : member t l = true -> In t l.
Proof.
  unfold member. intro H. apply existsb_exists in H.
  destruct H as (x & Hx & E). apply same_eq in E. subst. exact Hx.
Qed.

(** ** The exhaustive check *)



Lemma grid_upto_nonempty mh : In mh durations -> grid_upto mh <> [].
Proof.
  intro H. cbn in H.
  destruct H as [<- | [<- | [<- | [<- | []]]]]; vm_compute; discriminate.
Qed.

Lemma generate_is_schedule_of n tmax t_half mh :
  _generate_sampling_schedule n tmax t_half (inject_Z mh)
  = schedule_of n mh
      (_snap_to_grid tmax (grid_upto mh))
      (_snap_to_grid (py_min (3 * t_half) (inject_Z mh)) (grid_upto mh)).
Proof.
  unfold _generate_sampling_schedule, schedule_of, grid_upto. reflexivity.
Qed.

(** ** The clamps of the calculator *)

Lemma duration_in t_half tmax :
  In (sampling_duration_of t_half tmax) durations.
Proof.
  unfold sampling_duration_of, durations.
  destruct (Qleb _ 24); [cbn; tauto|].
  destruct (Qleb _ 36); [cbn; tauto|].
  destruct (Qleb _ 48); cbn; tauto.
Qed.

Lemma clamp_in (k : Z) :
  In (Z.max (Z.min k MAX_POINTS_PER_PERIOD) MIN_POINTS_PER_PERIOD) point_counts.
Proof.
  unfold MAX_POINTS_PER_PERIOD, MIN_POINTS_PER_PERIOD, point_counts.
  set (c := Z.max (Z.min k 20) 11).
  assert (H : (11 <= c <= 20)%Z) by (unfold c; lia).
  clearbody c.
  assert (Hc : (c = 11 \/ c = 12 \/ c = 13 \/ c = 14 \/ c = 15 \/ c = 16
               \/ c = 17 \/ c = 18 \/ c = 19 \/ c = 20)%Z) by lia.
  clear H.
  repeat (destruct Hc as [Hc | Hc];
          [subst c; cbn; repeat (first [left; reflexivity | right]) |]).
  subst c; cbn; repeat (first [left; reflexivity | right]).
Qed.

(** ** The blood plan *)

Lemma fk_per_period_max_returns n_periods fk_sample_ml needs_genetics
      max_blood_ml :
  ~ inject_Z n_periods * (fk_sample_ml + FLUSH_ML) == 0 ->
  fk_per_period_max n_periods fk_sample_ml needs_genetics max_blood_ml
  = Ret (Qfloor
           ((max_blood_ml - lab_volume_of n_periods needs_genetics
             + inject_Z n_periods * FLUSH_ML)
            / (inject_Z n_periods * (fk_sample_ml + FLUSH_ML)))).
Proof.
  intro H. unfold fk_per_period_max.
  apply Qeqb_neq in H. rewrite H. reflexivity.
Qed.

Lemma divisor_positive n_periods fk_sample_ml :
  (0 < n_periods)%Z -> 0 <= fk_sample_ml ->
  0 < inject_Z n_periods * (fk_sample_ml + FLUSH_ML).
Proof.
  intros Hn Hf. rewrite Zlt_Qlt in Hn. unfold FLUSH_ML.
  apply Qmult_lt_0_compat; [exact Hn | lra].
Qed.









End BloodFacts.

(* ================================================================== *)
(** * The design agent as a whole *)

Module DesignRunFacts.

Import Design StudyDesignAgent Intake BloodSampling StudyDesignRun Spec.
Import StudyDesignFacts BloodFacts.

(** X1. The adaptive selection raises [AttributeError] for every input:
    it names [ADAPTIVE_PARALLEL] for a half-life above 24 hours and
    [ADAPTIVE_CROSSOVER] otherwise, and [DesignType] has neither. *)
Theorem select_adaptive_design_raises (cv_intra t_half : option Q)
        (is_nti is_hvd : bool) :
  _select_adaptive_design cv_intra t_half is_nti is_hvd
  = Raise (AttributeError
             (if long_half_life t_half then "ADAPTIVE_PARALLEL"
              else "ADAPTIVE_CROSSOVER")).
Proof.
  unfold _select_adaptive_design.
  destruct (long_half_life t_half); reflexivity.
Qed.

(** X2. [StudyDesignAgent.run] returns no design result, whatever its
    input and whatever text the language model gives: with
    [force_adaptive] it fails in the adaptive selection, without it the
    selection succeeds and the washout calculation fails. *)
Theorem run_raises (inp : DesignInput) (justification : string) :
  run inp justification
  = Raise (AttributeError
             (if di_force_adaptive inp
              then (if long_half_life (di_t_half_hours inp)
                    then "ADAPTIVE_PARALLEL" else "ADAPTIVE_CROSSOVER")
              else "ADAPTIVE_PARALLEL")).
Proof.
  unfold run.
  destruct (di_force_adaptive inp).
  - unfold _select_adaptive_design.
    destruct (long_half_life (di_t_half_hours inp)); reflexivity.
  - rewrite select_design_by_priority. reflexivity.
Qed.

(** X3. [_describe_sequences] returns for every design: the members it
    compares with first are the four that exist, so the comparisons with
    the adaptive members are never reached.  The number of periods lies
    in 1..4 and is 1 exactly for the parallel design. *)
Theorem describe_sequences_returns (design : DesignType) :
  exists p s,
    _describe_sequences design = Ret (p, s)
    /\ (1 <= p <= 4)%Z
    /\ (2 <= s <= 3)%Z
    /\ (p = 1%Z <-> design = PARALLEL).
Proof.
  destruct design; eexists; eexists;
    (split; [reflexivity|]); (split; [lia|]); (split; [lia|]);
    split; intro H; (discriminate || reflexivity).
Qed.

Lemma intake_call_value (s : string) (m : IntakeMode) :
  IntakeMode_call s = Some m -> s = IntakeMode_value m.
Proof.
  unfold IntakeMode_call, IntakeMode_members. cbn [find IntakeMode_value].
  destruct (String.eqb "fasting" s) eqn:E1.
  { intro H. injection H as <-. apply String.eqb_eq in E1. symmetry. exact E1. }
  destruct (String.eqb "fed" s) eqn:E2.
  { intro H. injection H as <-. apply String.eqb_eq in E2. symmetry. exact E2. }
  destruct (String.eqb "both" s) eqn:E3.
  { intro H. injection H as <-. apply String.eqb_eq in E3. symmetry. exact E3. }
  discriminate.
Qed.

(** X4. The value of an intake mode, given as the user's input, selects
    that mode again, whatever the release type. *)
Theorem intake_mode_round_trip (m : IntakeMode) (release_type : string) :
  _determine_intake_mode (Some (IntakeMode_value m)) release_type = m.
Proof.
  destruct m; reflexivity.
Qed.

(** X5. The fed mode is chosen only by the user: without the input
    [fed] the agent gives fasting or both. *)
Theorem intake_fed_only_by_user (user_input : option string)
        (release_type : string) :
  _determine_intake_mode user_input release_type = FED ->
  user_input = Some "fed".
Proof.
  unfold _determine_intake_mode.
  destruct user_input as [s|].
  - destruct (String.eqb s EmptyString).
    + destruct (modified_release release_type); discriminate.
    + destruct (IntakeMode_call s) as [m|] eqn:E.
      * intros ->. apply intake_call_value in E. rewrite E. reflexivity.
      * destruct (modified_release release_type); discriminate.
  - destruct (modified_release release_type); discriminate.
Qed.

Lemma intake_fed_only_by_user_witness : Some "fed" = Some "fed".
Proof.
  apply (intake_fed_only_by_user (Some "fed") "immediate").
  reflexivity.
Defined.

(** The numbers of a plan, given the budget's maximum. *)
Lemma plan_numbers n t_half tmax subjects fk genetics ceiling k :
  fk_per_period_max n fk genetics ceiling = Ret k ->
  exists r,
    calculate_blood_sampling n t_half tmax subjects fk genetics ceiling
    = Ret r
    /\ fk_points_per_period r
       = Z.max (Z.min k MAX_POINTS_PER_PERIOD) MIN_POINTS_PER_PERIOD
    /\ total_volume_ml r
       = lab_volume_of n genetics
         + inject_Z (fk_points_per_period r * n) * fk
         + inject_Z (fk_points_per_period r * n - n) * FLUSH_ML
    /\ sampling_duration_hours r = sampling_duration_of t_half tmax.
Proof.
  intro H. unfold calculate_blood_sampling. rewrite H. cbn [bind].
  eexists. split; [reflexivity|]. repeat split.
Qed.

(** X6. For every design the number of periods [_describe_sequences]
    gives, passed to [_plan_blood_sampling] as [run] does, yields a plan:
    it has 16 to 20 points per period and its total volume stays within
    450 mL, whatever [tmax] and the half-life are. *)
Theorem plan_within_budget_for_every_design (design : DesignType)
        (tmax t_half : option Q) :
  exists p s r,
    _describe_sequences design = Ret (p, s)
    /\ calculate_blood_sampling p (or_default t_half 12.0)
         (or_default tmax 1.0) 24 FK_SAMPLE_ML false
         MAX_BLOOD_PER_SUBJECT_ML = Ret r
    /\ _plan_blood_sampling tmax t_half p false
       = Ret (fk_points_per_period r, sampling_times_hours r,
              sampling_duration_hours r)
    /\ (16 <= fk_points_per_period r <= 20)%Z
    /\ total_volume_ml r <= MAX_BLOOD_PER_SUBJECT_ML.
Proof.
  assert (H : forall p k,
             fk_per_period_max p FK_SAMPLE_ML false MAX_BLOOD_PER_SUBJECT_ML
             = Ret k ->
             (16 <= Z.max (Z.min k MAX_POINTS_PER_PERIOD)
                      MIN_POINTS_PER_PERIOD <= 20)%Z ->
             lab_volume_of p false
             + inject_Z (Z.max (Z.min k MAX_POINTS_PER_PERIOD)
                           MIN_POINTS_PER_PERIOD * p) * FK_SAMPLE_ML
             + inject_Z (Z.max (Z.min k MAX_POINTS_PER_PERIOD)
                           MIN_POINTS_PER_PERIOD * p - p) * FLUSH_ML
             <= MAX_BLOOD_PER_SUBJECT_ML ->
             exists r,
               calculate_blood_sampling p (or_default t_half 12.0)
                 (or_default tmax 1.0) 24 FK_SAMPLE_ML false
                 MAX_BLOOD_PER_SUBJECT_ML = Ret r
               /\ _plan_blood_sampling tmax t_half p false
                  = Ret (fk_points_per_period r, sampling_times_hours r,
                         sampling_duration_hours r)
               /\ (16 <= fk_points_per_period r <= 20)%Z
               /\ total_volume_ml r <= MAX_BLOOD_PER_SUBJECT_ML).
  { intros p k Hk Hpts Hvol.
    destruct (plan_numbers p (or_default t_half 12.0) (or_default tmax 1.0)
                24%Z FK_SAMPLE_ML false MAX_BLOOD_PER_SUBJECT_ML k Hk)
      as (r & Er & Epts & Evol & _).
    exists r. split; [exact Er|]. split.
    - unfold _plan_blood_sampling. rewrite Er. reflexivity.
    - rewrite Evol, Epts. split; assumption. }
  destruct design.
  - exists 2%Z, 2%Z.
    destruct (H 2%Z 35%Z) as (r & Hr);
      [reflexivity | vm_compute; split; discriminate
      | vm_compute; discriminate |].
    exists r. split; [reflexivity | exact Hr].
  - exists 3%Z, 3%Z.
    destruct (H 3%Z 22%Z) as (r & Hr);
      [reflexivity | vm_compute; split; discriminate
      | vm_compute; discriminate |].
    exists r. split; [reflexivity | exact Hr].
  - exists 4%Z, 2%Z.
    destruct (H 4%Z 16%Z) as (r & Hr);
      [reflexivity | vm_compute; split; discriminate
      | vm_compute; discriminate |].
    exists r. split; [reflexivity | exact Hr].
  - exists 1%Z, 2%Z.
    destruct (H 1%Z 72%Z) as (r & Hr);
      [reflexivity | vm_compute; split; discriminate
      | vm_compute; discriminate |].
    exists r. split; [reflexivity | exact Hr].
Qed.

End DesignRunFacts.

(* ================================================================== *)
(** * More on blood sampling *)

Module BloodSamplingMore.

Import BloodSampling ScheduleProps BloodSamplingAux BloodFacts.

Lemma nearest_le value l :
  forall x0 g,
    In g (x0 :: l) ->
    Qabs' (nearest value x0 l - value) <= Qabs' (g - value).
Proof.
  unfold nearest.
  induction l as [|x tl IH]; intros x0 g Hg.
  - destruct Hg as [<- | []]. cbn. apply Qle_refl.
  - cbn [fold_left].
    destruct (Qltb (Qabs' (x - value)) (Qabs' (x0 - value))) eqn:E.
    + apply Qltb_lt in E.
      destruct Hg as [<- | [<- | Hg]].
      * eapply Qle_trans; [apply (IH x x); left; reflexivity|].
        apply Qlt_le_weak. exact E.
      * apply IH. left. reflexivity.
      * apply IH. right. exact Hg.
    + apply Qltb_ge in E.
      destruct Hg as [<- | [<- | Hg]].
      * apply IH. left. reflexivity.
      * eapply Qle_trans; [apply (IH x0 x0); left; reflexivity | exact E].
      * apply IH. right. exact Hg.
Qed.

(** X7. [_snap_to_grid] returns a point of the grid that is nearest to
    the value: no grid point is closer. *)
Theorem snap_to_grid_nearest (value : Q) (grid : list Q) (g : Q) :
  In g grid ->
  In (_snap_to_grid value grid) grid
  /\ Qabs' (_snap_to_grid value grid - value) <= Qabs' (g - value).
Proof.
  intro Hg. split.
  - apply snap_in. intro E. rewrite E in Hg. exact Hg.
  - destruct grid as [|x0 tl]; [contradiction|].
    cbn [_snap_to_grid]. apply nearest_le. exact Hg.
Qed.

Lemma snap_to_grid_nearest_witness :
  In (_snap_to_grid 1.1 standard_grid) standard_grid
  /\ Qabs' (_snap_to_grid 1.1 standard_grid - 1.1) <= Qabs' (1.25 - 1.1).
Proof.
  apply (snap_to_grid_nearest 1.1 standard_grid 1.25).
  cbn. do 5 right. left. reflexivity.
Defined.

(** Every duration, count and pair of grid points gives a schedule that
    starts at 0, ends at the duration and stays on the grid. *)
Lemma all_schedules_framed :
  forallb
    (fun mh =>
       forallb
         (fun n =>
            forallb
              (fun ts =>
                 forallb
                   (fun ls =>
                      framed 0 (inject_Z mh) standard_grid
                        (schedule_of n mh ts ls))
                   (grid_upto mh))
              (grid_upto mh))
         point_counts)
    durations
  = true.
Proof. vm_cast_no_check (eq_refl true). Qed.

Lemma schedule_of_framed n mh ts ls :
  In mh durations -> In n point_counts ->
  In ts (grid_upto mh) -> In ls (grid_upto mh) ->
  framed 0 (inject_Z mh) standard_grid (schedule_of n mh ts ls) = true.
Proof.
  intros Hmh Hn Hts Hls.
  pose proof (proj1 (forallb_forall _ _) all_schedules_framed mh Hmh) as H1.
  cbv beta in H1.
  pose proof (proj1 (forallb_forall _ _) H1 n Hn) as H2.
  cbv beta in H2.
  pose proof (proj1 (forallb_forall _ _) H2 ts Hts) as H3.
  cbv beta in H3.
  exact (proj1 (forallb_forall _ _) H3 ls Hls).
Qed.

Lemma framed_props first final grid s :
  framed first final grid s = true ->
  hd_error s = Some first
  /\ last s first = final
  /\ incl s grid.
Proof.
  unfold framed. intro H.
  apply andb_true_iff in H. destruct H as [H Hall].
  destruct s as [|x tl]; [discriminate|].
  apply andb_true_iff in H. destruct H as [H1 H2].
  apply same_eq in H1. apply same_eq in H2. subst x.
  split; [reflexivity|]. split; [exact H2|].
  intros t Ht. apply member_in.
  apply (proj1 (forallb_forall _ _) Hall t Ht).
Qed.

Lemma framed_of_plan (fk_max : Z) (tmax t_half : Q) (mh : Z) :
  In mh durations ->
  framed 0 (inject_Z mh) standard_grid
    (_generate_sampling_schedule
       (Z.max (Z.min fk_max MAX_POINTS_PER_PERIOD) MIN_POINTS_PER_PERIOD)
       tmax t_half (inject_Z mh))
  = true.
Proof.
  intro Hmh. rewrite generate_is_schedule_of.
  apply schedule_of_framed.
  - exact Hmh.
  - apply clamp_in.
  - apply snap_in, grid_upto_nonempty, Hmh.
  - apply snap_in, grid_upto_nonempty, Hmh.
Qed.

(** X8. Whenever the divisor of the budget equation is not zero, the
    schedule of the returned plan starts at time 0, ends at
    [sampling_duration_hours], and consists of points of the standard
    grid. *)
Theorem schedule_frame (n_periods : Z) (t_half_hours tmax_hours : Q)
        (n_subjects : Z) (fk_sample_ml : Q) (needs_genetics : bool)
        (max_blood_ml : Q) :
  ~ inject_Z n_periods * (fk_sample_ml + FLUSH_ML) == 0 ->
  exists r,
    calculate_blood_sampling n_periods t_half_hours tmax_hours n_subjects
      fk_sample_ml needs_genetics max_blood_ml = Ret r
    /\ hd_error (sampling_times_hours r) = Some 0
    /\ last (sampling_times_hours r) 0
       = inject_Z (sampling_duration_hours r)
    /\ incl (sampling_times_hours r) standard_grid.
Proof.
  intro Hdiv.
  unfold calculate_blood_sampling.
  rewrite (fk_per_period_max_returns _ _ needs_genetics max_blood_ml Hdiv).
  cbn [bind].
  eexists. split; [reflexivity|].
  cbn [sampling_times_hours sampling_duration_hours].
  match goal with
  | |- context [_generate_sampling_schedule (Z.max (Z.min ?k _) _) _ _ _] =>
      pose proof (framed_props _ _ _ _
                    (framed_of_plan k tmax_hours t_half_hours _
                       (duration_in t_half_hours tmax_hours)))
        as (H1 & H2 & H3)
  end.
  split; [exact H1|]. split; [exact H2|].
  exact H3.
Qed.

Lemma schedule_frame_witness :
  exists r,
    calculate_blood_sampling 2 12 1 24 5 false 450 = Ret r
    /\ hd_error (sampling_times_hours r) = Some 0
    /\ last (sampling_times_hours r) 0
       = inject_Z (sampling_duration_hours r)
    /\ incl (sampling_times_hours r) standard_grid.
Proof.
  apply (schedule_frame 2 12 1 24 5 false 450).
  vm_compute. discriminate.
Defined.



Lemma lab_volume_helper n_periods needs_genetics :
  lab_volume_of n_periods needs_genetics
  == (let lab_vol :=
        inject_Z (2 + n_periods) * BHAK_SAMPLE_ML
        + inject_Z (2 + n_periods) * KAK_SAMPLE_ML + SEROLOGY_ML in
      if needs_genetics then lab_vol + GENETICS_ML else lab_vol).
Proof.
  unfold lab_volume_of. cbv zeta. destruct needs_genetics; ring.
Qed.

(** X10. The number of points of a plan is the maximum the helper
    [max_fk_points_per_period] computes from the same arguments, raised
    to the minimum of 11. *)
Theorem points_are_helper_maximum (n_periods : Z)
        (t_half_hours tmax_hours : Q) (n_subjects : Z) (fk_sample_ml : Q)
        (needs_genetics : bool) (max_blood_ml : Q) :
  ~ inject_Z n_periods * (fk_sample_ml + FLUSH_ML) == 0 ->
  exists r k,
    calculate_blood_sampling n_periods t_half_hours tmax_hours n_subjects
      fk_sample_ml needs_genetics max_blood_ml = Ret r
    /\ max_fk_points_per_period n_periods needs_genetics fk_sample_ml
         max_blood_ml = Ret k
    /\ fk_points_per_period r = Z.max k MIN_POINTS_PER_PERIOD.
Proof.
  intro Hdiv.
  unfold calculate_blood_sampling, max_fk_points_per_period.
  rewrite (fk_per_period_max_returns _ _ needs_genetics max_blood_ml Hdiv).
  cbn [bind].
  pose proof Hdiv as Hb. apply Qeqb_neq in Hb. rewrite Hb.
  eexists. eexists. split; [reflexivity|]. split; [reflexivity|].
  cbn [fk_points_per_period].
  f_equal. f_equal. apply Qfloor_comp.
  pose proof (lab_volume_helper n_periods needs_genetics) as Hl.
  cbv zeta in Hl. rewrite Hl. reflexivity.
Qed.

Lemma points_are_helper_maximum_witness :
  exists r k,
    calculate_blood_sampling 4 12 1 24 5 false 450 = Ret r
    /\ max_fk_points_per_period 4 false 5 450 = Ret k
    /\ fk_points_per_period r = Z.max k MIN_POINTS_PER_PERIOD.
Proof.
  apply (points_are_helper_maximum 4 12 1 24 5 false 450).
  vm_compute. discriminate.
Defined.

End BloodSamplingMore.

(* ================================================================== *)
(** * The study timeline *)

Module TimelineFacts.

Import Timeline.

(** ** The period loop *)

Lemma period_step_at periods washout calendar_days screening (k : nat) :
  (Z.of_nat k < periods)%Z ->
  period_step periods washout calendar_days
    (state_after periods washout calendar_days screening k) (Z.of_nat k)
  = state_after periods washout calendar_days screening (S k).
Proof.
  intro Hk. unfold period_step, state_after.
  cbn [visit_num current_day last_dose_day st_visits st_fk_periods
       st_dosing_days].
  rewrite seq_S, map_app, !map_app. cbn [map Nat.add].
  rewrite Nat2Z.inj_succ.
  assert (E : (Z.of_nat k <? periods)%Z = true) by (apply Z.ltb_lt; lia).
  rewrite E.
  destruct (Z.of_nat k <? periods - 1)%Z eqn:E1.
  - apply Z.ltb_lt in E1.
    assert (E2 : (Z.succ (Z.of_nat k) <? periods)%Z = true)
      by (apply Z.ltb_lt; lia).
    rewrite E2.
    unfold period_visit_of, period_of, dosing_day_of.
    f_equal; try lia.
    + rewrite <- app_comm_cons. do 3 f_equal. f_equal; lia.
    + do 2 f_equal. f_equal; lia.
  - apply Z.ltb_ge in E1.
    assert (E2 : (Z.succ (Z.of_nat k) <? periods)%Z = false)
      by (apply Z.ltb_ge; lia).
    rewrite E2.
    unfold period_visit_of, period_of, dosing_day_of.
    f_equal; try lia.
    + f_equal. lia.
    + rewrite <- app_comm_cons. do 3 f_equal. f_equal; lia.
    + do 2 f_equal. f_equal; lia.
Qed.

Lemma loop_prefix periods washout calendar_days screening (k : nat) :
  (0 < periods)%Z -> (Z.of_nat k <= periods)%Z ->
  fold_left (period_step periods washout calendar_days)
    (map Z.of_nat (seq 0 k)) (initial_state screening)
  = state_after periods washout calendar_days screening k.
Proof.
  intro Hp. induction k as [|k IH]; intro Hk.
  - unfold state_after, initial_state. cbn [seq map fold_left Z.of_nat].
    assert (E : (0 <? periods)%Z = true) by (apply Z.ltb_lt; lia).
    rewrite E. reflexivity.
  - rewrite seq_S, map_app, fold_left_app. cbn [Nat.add map fold_left].
    rewrite IH by lia. apply period_step_at. lia.
Qed.

Lemma period_loop_closed periods washout calendar_days screening :
  (0 < periods)%Z ->
  period_loop periods washout calendar_days screening
  = state_after periods washout calendar_days screening (Z.to_nat periods).
Proof.
  intro Hp. unfold period_loop, range.
  apply loop_prefix; [exact Hp | rewrite Z2Nat.id; lia].
Qed.

Lemma period_loop_empty periods washout calendar_days screening :
  (periods <= 0)%Z ->
  period_loop periods washout calendar_days screening
  = initial_state screening.
Proof.
  intro Hp. unfold period_loop, range.
  replace (Z.to_nat periods) with 0%nat by lia. reflexivity.
Qed.

(** ** The point budget *)

Lemma lab_positive_divisor periods :
  (periods <> 0)%Z -> Qeqb (inject_Z periods * 5.5) 0 = false.
Proof.
  intro H. apply Qeqb_neq. intro E.
  apply Qmult_integral in E. destruct E as [E | E].
  - apply H. unfold Qeq in E. cbn in E. lia.
  - vm_compute in E. discriminate.
Qed.

Lemma max_fk_points_returns periods genetics ceiling :
  (periods <> 0)%Z ->
  exists k, max_fk_points periods genetics ceiling = Ret k.
Proof.
  intro H. unfold max_fk_points.
  destruct (Qleb _ 0); [eexists; reflexivity|].
  rewrite (lab_positive_divisor periods H). eexists. reflexivity.
Qed.

Lemma max_fk_points_zero_periods genetics :
  max_fk_points 0 genetics MAX_BLOOD_PER_SUBJECT_ML = Raise ZeroDivisionError.
Proof. destruct genetics; reflexivity. Qed.

(** X11. How [calculate_timeline] ends: it returns a timeline exactly
    for a positive number of periods and a number of sequences other
    than 0; with 0 periods the point budget divides by zero, with a
    negative number the loop assigns no [last_dose_day] and reading it
    fails, and with 0 sequences the group size divides by zero. *)
Theorem timeline_outcome
        (periods washout hours n_blood_points n_total n_sequences
         screening follow_up : Z) (needs_genetics : bool) :
  match calculate_timeline periods washout hours n_blood_points n_total
          n_sequences screening follow_up needs_genetics with
  | Returned _ => (0 < periods)%Z /\ n_sequences <> 0%Z
  | Raised e =>
      e = ZeroDivisionError
      /\ (periods = 0%Z \/ ((0 < periods)%Z /\ n_sequences = 0%Z))
  | Unbound local => local = "last_dose_day" /\ (periods < 0)%Z
  end.
Proof.
  unfold calculate_timeline.
  destruct (Z.eq_dec periods 0) as [E0 | Hne].
  - subst periods. rewrite max_fk_points_zero_periods.
    split; [reflexivity | left; reflexivity].
  - destruct (max_fk_points_returns periods needs_genetics
                MAX_BLOOD_PER_SUBJECT_ML Hne) as (k & Ek).
    rewrite Ek.
    destruct (Z_lt_le_dec 0 periods) as [Hpos | Hneg].
    + rewrite period_loop_closed by exact Hpos.
      unfold state_after. cbn [last_dose_day].
      rewrite Z2Nat.id by lia. rewrite Z.ltb_irrefl.
      destruct (n_sequences =? 0)%Z eqn:Es.
      * apply Z.eqb_eq in Es. split; [reflexivity | right; split; assumption].
      * apply Z.eqb_neq in Es. split; assumption.
    + rewrite period_loop_empty by exact Hneg.
      cbn [initial_state last_dose_day]. split; [reflexivity | lia].
Qed.

(** ** The returned timeline *)

Lemma timeline_returned
      (periods washout hours n_blood_points n_total n_sequences
       screening follow_up : Z) (needs_genetics : bool) :
  (0 < periods)%Z -> n_sequences <> 0%Z ->
  exists k,
    max_fk_points periods needs_genetics MAX_BLOOD_PER_SUBJECT_ML = Ret k
    /\ calculate_timeline periods washout hours n_blood_points n_total
         n_sequences screening follow_up needs_genetics
       = Returned
           (mk_timeline periods washout screening follow_up hours
              (sampling_calendar_days_of hours)
              (mk_visit 1 Screening (- screening) (-1)
               :: map (period_visit_of washout
                         (sampling_calendar_days_of hours))
                    (range periods)
               ++ [mk_visit (2 + periods) FollowUp
                     ((periods - 1) * washout + 1 + follow_up)
                     ((periods - 1) * washout + 1 + follow_up)])
              (map (period_of washout (sampling_calendar_days_of hours))
                 (range periods))
              (map (dosing_day_of washout) (range periods))
              (_calculate_blood_volume
                 (Z.min (Z.min n_blood_points MAX_BLOOD_POINTS_PER_PERIOD) k)
                 periods n_total needs_genetics)
              (1 + ((periods - 1) * washout + 1 + follow_up))
              (screening + ((periods - 1) * washout + 1 + follow_up))
              (n_total / n_sequences))%Z.
Proof.
  intros Hp Hs.
  destruct (max_fk_points_returns periods needs_genetics
              MAX_BLOOD_PER_SUBJECT_ML) as (k & Ek); [lia|].
  exists k. split; [exact Ek|].
  unfold calculate_timeline. rewrite Ek.
  rewrite period_loop_closed by exact Hp.
  unfold state_after, range.
  cbn [last_dose_day visit_num st_visits st_fk_periods st_dosing_days].
  rewrite Z2Nat.id by lia. rewrite Z.ltb_irrefl.
  apply Z.eqb_neq in Hs. rewrite Hs. reflexivity.
Qed.

Lemma evenly_spaced_map washout (k a : nat) :
  evenly_spaced washout
    (map (dosing_day_of washout) (map Z.of_nat (seq a k))).
Proof.
  revert a. induction k as [|k IH]; intro a; [exact I|].
  destruct k as [|k]; [exact I|].
  specialize (IH (S a)).
  cbn [seq map evenly_spaced] in *.
  split; [|exact IH].
  unfold dosing_day_of. lia.
Qed.

(** X12. For a positive number of periods the timeline has one dosing
    day per period; the first is day 1, consecutive ones are exactly
    [washout_days] apart, and they are the dosing days of the
    periods. *)
Theorem dosing_days_evenly_spaced
        (periods washout hours n_blood_points n_total n_sequences
         screening follow_up : Z) (needs_genetics : bool) :
  (0 < periods)%Z -> n_sequences <> 0%Z ->
  exists tl,
    calculate_timeline periods washout hours n_blood_points n_total
      n_sequences screening follow_up needs_genetics = Returned tl
    /\ Z.of_nat (List.length (dosing_days tl)) = periods
    /\ hd_error (dosing_days tl) = Some 1%Z
    /\ evenly_spaced washout (dosing_days tl)
    /\ map dosing_day (fk_periods tl) = dosing_days tl.
Proof.
  intros Hp Hs.
  destruct (timeline_returned periods washout hours n_blood_points n_total
              n_sequences screening follow_up needs_genetics Hp Hs)
    as (k & _ & E).
  eexists. split; [exact E|].
  cbn [dosing_days fk_periods]. unfold range.
  split; [|split; [|split]].
  - rewrite !length_map, length_seq. lia.
  - destruct (Z.to_nat periods) as [|m] eqn:Em; [lia|]. reflexivity.
  - apply evenly_spaced_map.
  - rewrite map_map. reflexivity.
Qed.

Lemma dosing_days_evenly_spaced_witness :
  exists tl,
    calculate_timeline 4 7 24 18 36 2 14 7 false = Returned tl
    /\ Z.of_nat (List.length (dosing_days tl)) = 4%Z
    /\ hd_error (dosing_days tl) = Some 1%Z
    /\ evenly_spaced 7 (dosing_days tl)
    /\ map dosing_day (fk_periods tl) = dosing_days tl.
Proof.
  apply (dosing_days_evenly_spaced 4 7 24 18 36 2 14 7 false); lia.
Defined.

Lemma numbered_period_visits washout calendar_days rest (k a : nat) :
  numbered_from (Z.of_nat (a + k) + 2) rest ->
  numbered_from (Z.of_nat a + 2)
    (map (period_visit_of washout calendar_days) (map Z.of_nat (seq a k))
     ++ rest).
Proof.
  revert a. induction k as [|k IH]; intros a H.
  - rewrite Nat.add_0_r in H. exact H.
  - cbn [seq map app numbered_from]. split; [reflexivity|].
    replace (Z.of_nat a + 2 + 1)%Z with (Z.of_nat (S a) + 2)%Z by lia.
    apply IH. replace (S a + k)%nat with (a + S k)%nat by lia. exact H.
Qed.

Lemma last_cons_snoc {A : Type} (x : A) (l : list A) (v d : A) :
  last (x :: l ++ [v]) d = v.
Proof. apply (last_last (x :: l) v d). Qed.

(** X13. For a positive number of periods the timeline has
    [n_periods + 2] visits, numbered 1, 2, ... in order: the screening,
    one visit per period, and the follow-up, which falls
    [follow_up_days] after the last dosing day.  The longest and the
    shortest total duration differ by the screening days less one. *)
Theorem visits_numbered
        (periods washout hours n_blood_points n_total n_sequences
         screening follow_up : Z) (needs_genetics : bool) :
  (0 < periods)%Z -> n_sequences <> 0%Z ->
  exists tl,
    calculate_timeline periods washout hours n_blood_points n_total
      n_sequences screening follow_up needs_genetics = Returned tl
    /\ Z.of_nat (List.length (visits tl)) = (periods + 2)%Z
    /\ numbered_from 1 (visits tl)
    /\ last (visits tl) (mk_visit 0 Screening 0 0)
       = (mk_visit (periods + 2) FollowUp
            (last (dosing_days tl) 0 + follow_up)
            (last (dosing_days tl) 0 + follow_up))%Z
    /\ (total_days_max tl - total_days_min tl = screening - 1)%Z.
Proof.
  intros Hp Hs.
  destruct (timeline_returned periods washout hours n_blood_points n_total
              n_sequences screening follow_up needs_genetics Hp Hs)
    as (k & _ & E).
  eexists. split; [exact E|].
  cbn [visits dosing_days total_days_max total_days_min]. unfold range.
  split; [|split; [|split]].
  - cbn [List.length]. rewrite length_app, !length_map, length_seq.
    cbn [List.length]. lia.
  - cbn [numbered_from]. split; [reflexivity|].
    apply (numbered_period_visits _ _ _ (Z.to_nat periods) 0).
    cbn [numbered_from]. split; [|exact I].
    cbn [number]. rewrite Nat.add_0_l, Z2Nat.id by lia. lia.
  - rewrite last_cons_snoc.
    assert (El : last (map (dosing_day_of washout)
                         (map Z.of_nat (seq 0 (Z.to_nat periods)))) 0%Z
                 = ((periods - 1) * washout + 1)%Z).
    { destruct (Z.to_nat periods) as [|m] eqn:Em; [lia|].
      rewrite seq_S, !map_app. cbn [Nat.add map]. rewrite last_last.
      unfold dosing_day_of. lia. }
    rewrite El. f_equal; lia.
  - lia.
Qed.

Lemma visits_numbered_witness :
  exists tl,
    calculate_timeline 2 7 24 18 36 2 14 7 false = Returned tl
    /\ Z.of_nat (List.length (visits tl)) = (2 + 2)%Z
    /\ numbered_from 1 (visits tl)
    /\ last (visits tl) (mk_visit 0 Screening 0 0)
       = (mk_visit (2 + 2) FollowUp
            (last (dosing_days tl) 0 + 7) (last (dosing_days tl) 0 + 7))%Z
    /\ (total_days_max tl - total_days_min tl = 14 - 1)%Z.
Proof.
  apply (visits_numbered 2 7 24 18 36 2 14 7 false); lia.
Defined.

Lemma stays_disjoint_map washout calendar_days (k a : nat) :
  (calendar_days <= washout)%Z ->
  stays_disjoint
    (map (period_of washout calendar_days) (map Z.of_nat (seq a k))).
Proof.
  intro H. revert a. induction k as [|k IH]; intro a; [exact I|].
  destruct k as [|k]; [exact I|].
  specialize (IH (S a)).
  cbn [seq map stays_disjoint] in *.
  split; [|exact IH].
  cbn [discharge_day hospitalization_day period_of]. lia.
Qed.

(** X14. With two periods or more, the hospital stays of consecutive
    periods do not overlap exactly when the washout is at least as long
    as the calendar days of sampling. *)
Theorem stays_disjoint_iff
        (periods washout hours n_blood_points n_total n_sequences
         screening follow_up : Z) (needs_genetics : bool) :
  (2 <= periods)%Z -> n_sequences <> 0%Z ->
  exists tl,
    calculate_timeline periods washout hours n_blood_points n_total
      n_sequences screening follow_up needs_genetics = Returned tl
    /\ (stays_disjoint (fk_periods tl)
        <-> (fk_period_days tl <= washout)%Z).
Proof.
  intros Hp Hs.
  destruct (timeline_returned periods washout hours n_blood_points n_total
              n_sequences screening follow_up needs_genetics
              ltac:(lia) Hs)
    as (k & _ & E).
  eexists. split; [exact E|].
  cbn [fk_periods fk_period_days]. unfold range.
  split.
  - destruct (Z.to_nat periods) as [|[|m]] eqn:Em; [lia | lia |].
    cbn [seq map stays_disjoint].
    cbn [discharge_day hospitalization_day period_of].
    intros [H _]. lia.
  - apply stays_disjoint_map.
Qed.

Lemma stays_disjoint_iff_witness :
  exists tl,
    calculate_timeline 2 7 72 18 36 2 14 7 false = Returned tl
    /\ (stays_disjoint (fk_periods tl) <-> (fk_period_days tl <= 7)%Z).
Proof.
  apply (stays_disjoint_iff 2 7 72 18 36 2 14 7 false); lia.
Defined.

End TimelineFacts.

(* ================================================================== *)
(** * The blood budget of the timeline *)

Module BudgetFacts.

Import Timeline TimelineFacts BloodSamplingMore.

(** ** The volume of a number of points *)

Lemma total_formula points periods n_total genetics :
  total_per_subject_ml
    (_calculate_blood_volume points periods n_total genetics)
  == 5 * (inject_Z points * inject_Z periods)
     + 0.5 * inject_Z (Z.max 0 (points * periods - periods))
     + inject_Z (lab_of periods genetics).
Proof.
  unfold _calculate_blood_volume, lab_of. cbn [total_per_subject_ml].
  unfold BLOOD_PER_SAMPLE_ML, BLOOD_FLUSH_ML, BLOOD_KAK_ML, BLOOD_BHAK_ML,
    BLOOD_SEROLOGY_ML, BLOOD_GENETICS_ML.
  cbv zeta.
  destruct genetics;
    repeat (rewrite inject_Z_plus || rewrite inject_Z_mult);
    change (inject_Z 2) with 2; change (inject_Z 14) with 14;
    change (inject_Z 10) with 10; ring.
Qed.

Lemma total_ok_iff points periods n_total genetics :
  total_ok (_calculate_blood_volume points periods n_total genetics) = true
  <-> total_per_subject_ml
        (_calculate_blood_volume points periods n_total genetics)
      <= MAX_BLOOD_PER_SUBJECT_ML.
Proof.
  unfold _calculate_blood_volume. cbn [total_ok total_per_subject_ml].
  apply Qleb_le.
Qed.

(** The real number of points the budget allows. *)
Lemma budget_quotient periods (budget : Q) :
  (0 < periods)%Z ->
  (budget + inject_Z periods * 0.5) / (inject_Z periods * 5.5)
  * (5.5 * inject_Z periods)
  == budget + 0.5 * inject_Z periods.
Proof.
  intro Hp. rewrite Zlt_Qlt in Hp. change (inject_Z 0) with 0 in Hp.
  field. intro E. rewrite E in Hp. apply (Qlt_irrefl 0 Hp).
Qed.

Lemma max_fk_points_value periods genetics ceiling :
  (0 < periods)%Z ->
  inject_Z (lab_of periods genetics) < ceiling ->
  max_fk_points periods genetics ceiling
  = Ret (Z.min
           (Qfloor ((ceiling - inject_Z (lab_of periods genetics)
                     + inject_Z periods * 0.5)
                    / (inject_Z periods * 5.5)))
           MAX_BLOOD_POINTS_PER_PERIOD)
  /\ 0 < (ceiling - inject_Z (lab_of periods genetics)
          + inject_Z periods * 0.5)
         / (inject_Z periods * 5.5).
Proof.
  intros Hp Hlab.
  assert (Hq : 0 < (ceiling - inject_Z (lab_of periods genetics)
                    + inject_Z periods * 0.5)
                   / (inject_Z periods * 5.5)).
  { pose proof Hp as Hp'. rewrite Zlt_Qlt in Hp'.
    change (inject_Z 0) with 0 in Hp'.
    apply Qlt_shift_div_l; lra. }
  split; [|exact Hq].
  unfold max_fk_points. fold (lab_of periods genetics).
  assert (E1 : Qleb (ceiling - inject_Z (lab_of periods genetics)) 0 = false)
    by (apply Qleb_gt; lra).
  rewrite E1.
  rewrite (lab_positive_divisor periods) by lia.
  unfold py_int.
  assert (E2 : Qltb ((ceiling - inject_Z (lab_of periods genetics)
                      + inject_Z periods * 0.5)
                     / (inject_Z periods * 5.5)) 0 = false)
    by (apply Qltb_ge; apply Qlt_le_weak; exact Hq).
  rewrite E2. reflexivity.
Qed.

(** Within the maximum, the volume check passes. *)
Lemma within_budget points periods n_total genetics k :
  (0 < periods)%Z ->
  inject_Z (lab_of periods genetics) < MAX_BLOOD_PER_SUBJECT_ML ->
  max_fk_points periods genetics MAX_BLOOD_PER_SUBJECT_ML = Ret k ->
  (points <= k)%Z ->
  total_ok (_calculate_blood_volume points periods n_total genetics) = true.
Proof.
  intros Hp Hlab Ek Hle.
  destruct (max_fk_points_value periods genetics MAX_BLOOD_PER_SUBJECT_ML
              Hp Hlab) as (Ev & Hq).
  rewrite Ev in Ek. apply TableFacts.Ret_inj in Ek.
  unfold MAX_BLOOD_POINTS_PER_PERIOD in Ek.
  apply total_ok_iff. rewrite total_formula.
  set (x := (MAX_BLOOD_PER_SUBJECT_ML - inject_Z (lab_of periods genetics)
             + inject_Z periods * 0.5) / (inject_Z periods * 5.5)) in *.
  pose proof (budget_quotient periods
                (MAX_BLOOD_PER_SUBJECT_ML
                 - inject_Z (lab_of periods genetics)) Hp) as Hx.
  fold x in Hx.
  assert (Hfloor : inject_Z (Qfloor x) <= x) by apply Qfloor_le.
  assert (Hpx : inject_Z points <= x).
  { eapply Qle_trans; [|exact Hfloor]. rewrite <- Zle_Qle. lia. }
  pose proof Hp as Hp'. rewrite Zlt_Qlt in Hp'.
  change (inject_Z 0) with 0 in Hp'.
  destruct (Z_le_gt_dec points 0) as [H0 | H1].
  - assert (Em : Z.max 0 (points * periods - periods) = 0%Z)
      by (apply Z.max_l; nia).
    rewrite Em. change (inject_Z 0) with 0.
    assert (Hn : inject_Z points * inject_Z periods <= 0).
    { rewrite <- inject_Z_mult. change 0 with (inject_Z 0).
      rewrite <- Zle_Qle. nia. }
    lra.
  - assert (Em : Z.max 0 (points * periods - periods)
                 = (points * periods - periods)%Z)
      by (apply Z.max_r; nia).
    rewrite Em. unfold Z.sub.
    rewrite inject_Z_plus, inject_Z_mult, inject_Z_opp.
    assert (Hm : inject_Z points * (5.5 * inject_Z periods)
                 <= x * (5.5 * inject_Z periods)).
    { apply Qmult_le_compat_r; [exact Hpx | lra]. }
    rewrite Hx in Hm. lra.
Qed.

(** X15. For a positive number of periods whose laboratory draws leave a
    positive budget, [max_fk_points] is the largest admissible number of
    points up to 20: every number of points up to it passes the volume
    check of [_calculate_blood_volume], and when it is below 20, one
    point more fails the check. *)
Theorem max_fk_points_is_maximum (periods n_total : Z) (genetics : bool)
        (points : Z) :
  (0 < periods)%Z ->
  inject_Z (lab_of periods genetics) < MAX_BLOOD_PER_SUBJECT_ML ->
  exists k,
    max_fk_points periods genetics MAX_BLOOD_PER_SUBJECT_ML = Ret k
    /\ (0 <= k <= MAX_BLOOD_POINTS_PER_PERIOD)%Z
    /\ ((points <= k)%Z ->
        total_ok (_calculate_blood_volume points periods n_total genetics)
        = true)
    /\ ((k < MAX_BLOOD_POINTS_PER_PERIOD)%Z ->
        total_ok (_calculate_blood_volume (k + 1) periods n_total genetics)
        = false).
Proof.
  intros Hp Hlab.
  destruct (max_fk_points_value periods genetics MAX_BLOOD_PER_SUBJECT_ML
              Hp Hlab) as (Ev & Hq).
  eexists. split; [exact Ev|].
  set (x := (MAX_BLOOD_PER_SUBJECT_ML - inject_Z (lab_of periods genetics)
             + inject_Z periods * 0.5) / (inject_Z periods * 5.5)) in *.
  assert (Hf0 : (0 <= Qfloor x)%Z).
  { change 0%Z with (Qfloor 0). apply Qfloor_resp_le.
    apply Qlt_le_weak. exact Hq. }
  unfold MAX_BLOOD_POINTS_PER_PERIOD.
  split; [lia|]. split.
  - intro Hle.
    apply (within_budget points periods n_total genetics _ Hp Hlab Ev).
    exact Hle.
  - intro Hlt.
    assert (Ek : Z.min (Qfloor x) 20 = Qfloor x) by lia.
    rewrite Ek.
    destruct (total_ok (_calculate_blood_volume (Qfloor x + 1) periods
                          n_total genetics)) eqn:Eok; [exfalso | reflexivity].
    apply total_ok_iff in Eok. rewrite total_formula in Eok.
    pose proof (budget_quotient periods
                  (MAX_BLOOD_PER_SUBJECT_ML
                   - inject_Z (lab_of periods genetics)) Hp) as Hx.
    fold x in Hx.
    assert (Hup : x < inject_Z (Qfloor x + 1)) by apply Qlt_floor.
    pose proof Hp as Hp'. rewrite Zlt_Qlt in Hp'.
    change (inject_Z 0) with 0 in Hp'.
    assert (Em : Z.max 0 ((Qfloor x + 1) * periods - periods)
                 = ((Qfloor x + 1) * periods - periods)%Z)
      by (apply Z.max_r; nia).
    rewrite Em in Eok. unfold Z.sub in Eok.
    rewrite (inject_Z_plus ((Qfloor x + 1) * periods)), inject_Z_mult,
      inject_Z_opp in Eok.
    assert (Hm : x * (5.5 * inject_Z periods)
                 < inject_Z (Qfloor x + 1) * (5.5 * inject_Z periods)).
    { apply Qmult_lt_compat_r; [lra | exact Hup]. }
    rewrite Hx in Hm. lra.
Qed.

Lemma max_fk_points_is_maximum_witness :
  exists k,
    max_fk_points 4 false MAX_BLOOD_PER_SUBJECT_ML = Ret k
    /\ (0 <= k <= MAX_BLOOD_POINTS_PER_PERIOD)%Z
    /\ ((16 <= k)%Z ->
        total_ok (_calculate_blood_volume 16 4 36 false) = true)
    /\ ((k < MAX_BLOOD_POINTS_PER_PERIOD)%Z ->
        total_ok (_calculate_blood_volume (k + 1) 4 36 false) = false).
Proof.
  apply (max_fk_points_is_maximum 4 36 false 16).
  - lia.
  - vm_compute. reflexivity.
Defined.

(** X16. For a positive number of periods the timeline's blood volume
    passes the check against 450 mL whenever the laboratory draws alone
    stay below it, whatever number of points was asked for: the points
    are lowered to the budget. *)
Theorem timeline_blood_within_limit
        (periods washout hours n_blood_points n_total n_sequences
         screening follow_up : Z) (needs_genetics : bool) :
  (0 < periods)%Z -> n_sequences <> 0%Z ->
  inject_Z (lab_of periods needs_genetics) < MAX_BLOOD_PER_SUBJECT_ML ->
  exists tl,
    calculate_timeline periods washout hours n_blood_points n_total
      n_sequences screening follow_up needs_genetics = Returned tl
    /\ total_ok (blood tl) = true
    /\ (fk_points_per_period (blood tl)
        <= Z.min n_blood_points MAX_BLOOD_POINTS_PER_PERIOD)%Z.
Proof.
  intros Hp Hs Hlab.
  destruct (timeline_returned periods washout hours n_blood_points n_total
              n_sequences screening follow_up needs_genetics Hp Hs)
    as (k & Ek & E).
  eexists. split; [exact E|].
  cbn [blood]. split.
  - apply (within_budget _ periods n_total needs_genetics k Hp Hlab Ek).
    lia.
  - unfold _calculate_blood_volume. cbn [fk_points_per_period]. lia.
Qed.

Lemma timeline_blood_within_limit_witness :
  exists tl,
    calculate_timeline 4 7 24 20 36 2 14 7 false = Returned tl
    /\ total_ok (blood tl) = true
    /\ (fk_points_per_period (blood tl)
        <= Z.min 20 MAX_BLOOD_POINTS_PER_PERIOD)%Z.
Proof.
  apply (timeline_blood_within_limit 4 7 24 20 36 2 14 7 false).
  - lia.
  - lia.
  - vm_compute. reflexivity.
Defined.

(** ** The two implementations of the blood formula *)

Lemma lab_of_volume periods genetics :
  inject_Z (lab_of periods genetics)
  == BloodSampling.lab_volume_of periods genetics.
Proof.
  unfold lab_of, BloodSampling.lab_volume_of, BloodSampling.BHAK_SAMPLE_ML,
    BloodSampling.KAK_SAMPLE_ML, BloodSampling.SEROLOGY_ML,
    BloodSampling.GENETICS_ML.
  cbv zeta.
  destruct genetics;
    repeat (rewrite inject_Z_plus || rewrite inject_Z_mult);
    change (inject_Z 2) with 2; change (inject_Z 14) with 14;
    change (inject_Z 10) with 10; ring.
Qed.



(** X18. The volumes [_calculate_blood_volume] computes for the points
    of a plan of [calculate_blood_sampling] (at 5 mL per sample, a
    positive number of periods) are the volumes of the plan: PK draws,
    flushes, laboratory draws, total and the number of biosamples
    agree, and its check against 450 mL holds exactly when the plan's
    total is at most 450. *)
Theorem blood_volume_agrees (periods : Z) (t_half_hours tmax_hours : Q)
        (n_subjects : Z) (genetics : bool) (ceiling : Q) :
  (0 < periods)%Z ->
  exists r,
    BloodSampling.calculate_blood_sampling periods t_half_hours tmax_hours
      n_subjects BloodSampling.FK_SAMPLE_ML genetics ceiling = Ret r
    /\ fk_volume_ml
         (_calculate_blood_volume (BloodSampling.fk_points_per_period r)
            periods n_subjects genetics)
       == BloodSampling.fk_volume_ml r
    /\ flush_volume_ml
         (_calculate_blood_volume (BloodSampling.fk_points_per_period r)
            periods n_subjects genetics)
       == BloodSampling.flush_volume_ml r
    /\ lab_total_ml
         (_calculate_blood_volume (BloodSampling.fk_points_per_period r)
            periods n_subjects genetics)
       == BloodSampling.lab_volume_ml r
    /\ total_per_subject_ml
         (_calculate_blood_volume (BloodSampling.fk_points_per_period r)
            periods n_subjects genetics)
       == BloodSampling.total_volume_ml r
    /\ biosamples_total
         (_calculate_blood_volume (BloodSampling.fk_points_per_period r)
            periods n_subjects genetics)
       = BloodSampling.biosamples_total r
    /\ (total_ok
          (_calculate_blood_volume (BloodSampling.fk_points_per_period r)
             periods n_subjects genetics) = true
        <-> BloodSampling.total_volume_ml r <= MAX_BLOOD_PER_SUBJECT_ML).
Proof.
  intro Hp.
  assert (Hdiv : ~ inject_Z periods
                   * (BloodSampling.FK_SAMPLE_ML + BloodSampling.FLUSH_ML)
                   == 0).
  { pose proof (BloodFacts.divisor_positive periods
                  BloodSampling.FK_SAMPLE_ML Hp) as H.
    intro E. rewrite E in H.
    apply (Qlt_irrefl 0). apply H. vm_compute. discriminate. }
  pose proof (BloodFacts.fk_per_period_max_returns periods
                BloodSampling.FK_SAMPLE_ML genetics ceiling Hdiv) as Ek.
  destruct (DesignRunFacts.plan_numbers periods t_half_hours tmax_hours
              n_subjects BloodSampling.FK_SAMPLE_ML genetics ceiling _ Ek)
    as (r & Er & Epts & _).
  exists r. split; [exact Er|].
  assert (Hk : (11 <= BloodSampling.fk_points_per_period r)%Z).
  { rewrite Epts.
    unfold BloodSampling.MIN_POINTS_PER_PERIOD. lia. }
  unfold BloodSampling.calculate_blood_sampling in Er.
  rewrite Ek in Er. cbn [bind] in Er.
  apply TableFacts.Ret_inj in Er. subst r.
  cbn [BloodSampling.fk_points_per_period BloodSampling.fk_volume_ml
       BloodSampling.flush_volume_ml BloodSampling.lab_volume_ml
       BloodSampling.total_volume_ml BloodSampling.biosamples_total] in *.
  set (k := Z.max (Z.min _ BloodSampling.MAX_POINTS_PER_PERIOD)
              BloodSampling.MIN_POINTS_PER_PERIOD) in *.
  assert (Em : Z.max 0 (k * periods - periods) = (k * periods - periods)%Z)
    by (apply Z.max_r; nia).
  assert (Hflush : flush_volume_ml
                     (_calculate_blood_volume k periods n_subjects genetics)
                   == inject_Z (k * periods - periods)
                      * BloodSampling.FLUSH_ML).
  { unfold _calculate_blood_volume. cbn [flush_volume_ml].
    rewrite Em. reflexivity. }
  assert (Hlabv : lab_total_ml
                    (_calculate_blood_volume k periods n_subjects genetics)
                  == BloodSampling.lab_volume_of periods genetics).
  { unfold _calculate_blood_volume. cbn [lab_total_ml].
    unfold BloodSampling.lab_volume_of, BLOOD_KAK_ML, BLOOD_BHAK_ML,
      BLOOD_SEROLOGY_ML, BLOOD_GENETICS_ML, BloodSampling.BHAK_SAMPLE_ML,
      BloodSampling.KAK_SAMPLE_ML, BloodSampling.SEROLOGY_ML,
      BloodSampling.GENETICS_ML.
    cbv zeta. destruct genetics; ring. }
  assert (Htotal : total_per_subject_ml
                     (_calculate_blood_volume k periods n_subjects genetics)
                   == BloodSampling.lab_volume_of periods genetics
                      + inject_Z (k * periods) * BloodSampling.FK_SAMPLE_ML
                      + inject_Z (k * periods - periods)
                        * BloodSampling.FLUSH_ML).
  { rewrite <- Hlabv, <- Hflush.
    unfold _calculate_blood_volume.
    cbn [total_per_subject_ml lab_total_ml flush_volume_ml].
    unfold BLOOD_PER_SAMPLE_ML, BloodSampling.FK_SAMPLE_ML. ring. }
  split; [reflexivity|].
  split; [exact Hflush|].
  split; [exact Hlabv|].
  split; [exact Htotal|].
  split; [reflexivity|].
  rewrite total_ok_iff, Htotal. reflexivity.
Qed.

Lemma blood_volume_agrees_witness :
  exists r,
    BloodSampling.calculate_blood_sampling 2 12 1 24
      BloodSampling.FK_SAMPLE_ML false 450 = Ret r
    /\ fk_volume_ml
         (_calculate_blood_volume (BloodSampling.fk_points_per_period r)
            2 24 false)
       == BloodSampling.fk_volume_ml r
    /\ flush_volume_ml
         (_calculate_blood_volume (BloodSampling.fk_points_per_period r)
            2 24 false)
       == BloodSampling.flush_volume_ml r
    /\ lab_total_ml
         (_calculate_blood_volume (BloodSampling.fk_points_per_period r)
            2 24 false)
       == BloodSampling.lab_volume_ml r
    /\ total_per_subject_ml
         (_calculate_blood_volume (BloodSampling.fk_points_per_period r)
            2 24 false)
       == BloodSampling.total_volume_ml r
    /\ biosamples_total
         (_calculate_blood_volume (BloodSampling.fk_points_per_period r)
            2 24 false)
       = BloodSampling.biosamples_total r
    /\ (total_ok
          (_calculate_blood_volume (BloodSampling.fk_points_per_period r)
             2 24 false) = true
        <-> BloodSampling.total_volume_ml r <= MAX_BLOOD_PER_SUBJECT_ML).
Proof.
  apply (blood_volume_agrees 2 12 1 24 false 450). lia.
Defined.

End BudgetFacts.

(* ================================================================== *)
(** * More on the sample size *)

Module SampleSizeMore.

Import Design Model SampleSizeAgent Spec TableProps Inputs PlanViews.
Import ScanFacts TableFacts ReferenceTableFacts SampleSizeFacts.

(** Once the CV has forced the flag, the caller's flag selects no
    table. *)
Lemma forced_flag_irrelevant cv gmr n_periods is_nti (f1 f2 : bool) :
  _calculate_n_base cv gmr n_periods
    (if Qleb CV_HVD_THRESHOLD cv then true else f1) is_nti
  = _calculate_n_base cv gmr n_periods
      (if Qleb CV_HVD_THRESHOLD cv then true else f2) is_nti.
Proof.
  destruct (Qleb CV_HVD_THRESHOLD cv) eqn:E; [reflexivity|].
  unfold _calculate_n_base. rewrite E.
  destruct is_nti; [reflexivity|].
  rewrite !andb_false_r. reflexivity.
Qed.

(** X19. The caller's [is_hvd] flag changes no number of the plan:
    whatever the flag, every field other than the narrative is the
    same, and so is the outcome when the agent fails. *)
Theorem hvd_flag_changes_no_number (inp : Input) (flag : option bool) :
  numbers_of (run (with_is_hvd inp flag)) = numbers_of (run inp).
Proof.
  unfold numbers_of, run, run_locals, with_is_hvd.
  cbn [in_cv_intra in_design in_is_hvd in_overrides].
  rewrite (forced_flag_irrelevant _ _ _ _ (get_or flag false)
             (get_or (in_is_hvd inp) false)).
  destruct (_calculate_n_base _ _ _ _ _) as [nb|e]; [|reflexivity].
  cbn [bind].
  destruct (ceil_div _ _) as [nd|e]; [|reflexivity]. cbn [bind].
  destruct (ceil_div _ _) as [ns|e]; [|reflexivity]. cbn [bind].
  reflexivity.
Qed.

(** X20. A CV above the cap of 60 gives the plan of the cap: the agent
    returns the same result for every such CV. *)
Theorem cv_above_cap_same_plan (inp : Input) (cv : Q) :
  MAX_CV_INTRA < cv ->
  run (with_cv_intra inp (Some cv))
  = run (with_cv_intra inp (Some MAX_CV_INTRA)).
Proof.
  intro H.
  assert (E : effective_cv (Some cv) = effective_cv (Some MAX_CV_INTRA)).
  { unfold effective_cv, py_min. cbn [get_or].
    apply Qltb_lt in H. rewrite H. reflexivity. }
  unfold run, run_locals, with_cv_intra.
  cbn [in_cv_intra in_design in_is_hvd in_overrides].
  rewrite E. reflexivity.
Qed.

Lemma cv_above_cap_same_plan_witness :
  run (with_cv_intra scenario_standard (Some 75))
  = run (with_cv_intra scenario_standard (Some MAX_CV_INTRA)).
Proof.
  apply (cv_above_cap_same_plan scenario_standard 75).
  vm_compute. reflexivity.
Defined.

Lemma reference_tables_reproduced :
  forallb reproduces reference_tables = true.
Proof. vm_compute. reflexivity. Qed.

(** X21. At every breakpoint of a reference table the interpolation
    returns the value the table has there, raised to the minimum of
    12. *)
Theorem breakpoints_reproduced (t : table) (c n : Z) :
  In t reference_tables -> In (c, n) t ->
  _interpolate_table t (inject_Z c) = Ret (Z.max MIN_SUBJECTS n).
Proof.
  intros Ht Hi.
  pose proof (proj1 (forallb_forall _ _) reference_tables_reproduced t Ht)
    as H.
  unfold reproduces in H.
  pose proof (proj1 (forallb_forall _ _) H (c, n) Hi) as Hc.
  cbn [fst snd] in Hc.
  destruct (_interpolate_table t (inject_Z c)) as [v|e]; [|discriminate].
  apply Z.eqb_eq in Hc. rewrite Hc. reflexivity.
Qed.

Lemma breakpoints_reproduced_witness :
  _interpolate_table TOST_2x2_095 (inject_Z 24) = Ret (Z.max MIN_SUBJECTS 26).
Proof.
  apply (breakpoints_reproduced TOST_2x2_095 24 26).
  - cbn. left. reflexivity.
  - cbn. do 5 right. left. reflexivity.
Defined.

(** X22. On the unscaled and the scaled-limits tables the base size
    lies between the lowest table value, raised to 12, and the highest
    table value, whatever the CV. *)
Theorem n_base_within_table_range (t : table) (cv : Q) :
  In t (unscaled_tables ++ scaled_tables) ->
  exists n,
    n_base_from t cv = Ret n
    /\ (Z.max MIN_SUBJECTS (snd (first_item t)) <= n
        <= snd (last_item t))%Z.
Proof.
  intro Hin.
  assert (Hwf : well_formed t = true).
  { apply well_formed_in. unfold reference_tables.
    rewrite app_assoc. apply in_or_app. left. exact Hin. }
  assert (Hr : forall lo, rising_after lo (sorted_items t)).
  { intro lo. apply rising_after_all.
    apply (proj1 (forallb_forall _ _) rising_tables t Hin). }
  destruct (interpolate_table_regions t (inject_Z (fst (first_item t))) Hwf)
    as (Hlow & _ & _).
  specialize (Hlow (Qle_refl _)).
  destruct (interpolate_table_regions t (inject_Z (fst (last_item t))) Hwf)
    as (_ & Hhigh & _).
  specialize (Hhigh (Qle_refl _)).
  destruct (interpolate_table_returns t (inject_Z (fst (last_item t))) Hwf)
    as (nl & Enl & Hnl).
  rewrite Hhigh in Enl. apply Ret_inj in Enl.
  destruct (Qlt_le_dec cv (inject_Z (fst (first_item t)))) as [Hc1 | Hc1].
  - (* below the lowest breakpoint *)
    destruct (interpolate_table_regions t cv Hwf) as (Hl & _ & _).
    specialize (Hl (Qlt_le_weak _ _ Hc1)).
    destruct (n_base_mono t cv (inject_Z (fst (last_item t))) Hwf (Hr cv))
      as (a & b & Ea & Eb & Hab).
    { destruct (well_formed_shape t Hwf)
        as (c0 & n0 & c1 & n1 & rest & E & Hk & _).
      unfold first_item, last_item in *. rewrite E in *.
      cbn [hd fst] in Hc1.
      pose proof (head_le_last ((c1, n1) :: rest) c0 n0 (0, 0)%Z Hk) as Hh.
      rewrite Zle_Qle in Hh. lra. }
    exists a. split; [exact Ea|].
    unfold n_base_from in Ea, Eb. rewrite Hl in Ea. rewrite Hhigh in Eb.
    cbn [bind] in Ea, Eb. apply Ret_inj in Ea. apply Ret_inj in Eb.
    subst a b nl. unfold MIN_SUBJECTS in *. lia.
  - destruct (n_base_mono t (inject_Z (fst (first_item t))) cv Hwf
                (Hr _) Hc1) as (a & b & Ea & Eb & Hab).
    exists b. split; [exact Eb|].
    unfold n_base_from in Ea. rewrite Hlow in Ea. cbn [bind] in Ea.
    apply Ret_inj in Ea. subst a.
    split; [unfold MIN_SUBJECTS in *; lia|].
    destruct (Qlt_le_dec cv (inject_Z (fst (last_item t)))) as [Hc2 | Hc2].
    + destruct (n_base_mono t cv (inject_Z (fst (last_item t))) Hwf (Hr cv)
                  (Qlt_le_weak _ _ Hc2)) as (a' & b' & Ea' & Eb' & Hab').
      rewrite Eb in Ea'. apply Ret_inj in Ea'. subst a'.
      unfold n_base_from in Eb'. rewrite Hhigh in Eb'. cbn [bind] in Eb'.
      apply Ret_inj in Eb'. subst b' nl. unfold MIN_SUBJECTS in *. lia.
    + destruct (interpolate_table_regions t cv Hwf) as (_ & Hh & _).
      specialize (Hh Hc2).
      unfold n_base_from in Eb. rewrite Hh in Eb. cbn [bind] in Eb.
      apply Ret_inj in Eb. subst b nl. unfold MIN_SUBJECTS in *. lia.
Qed.

Lemma n_base_within_table_range_witness :
  exists n,
    n_base_from TOST_PARALLEL_095 33 = Ret n
    /\ (Z.max MIN_SUBJECTS (snd (first_item TOST_PARALLEL_095)) <= n
        <= snd (last_item TOST_PARALLEL_095))%Z.
Proof.
  apply (n_base_within_table_range TOST_PARALLEL_095 33).
  cbn. do 2 right. left. reflexivity.
Defined.

End SampleSizeMore.

(* ================================================================== *)
(** * Across the modules *)

Module CrossFacts.

Import Model SampleSizeAgent Inputs.
Import SampleSizeFacts TimelineFacts BudgetFacts.

Lemma run_locals_raises_dropout inp :
  1 - dropout_rate_of inp == 0 ->
  run_locals inp = Raise ZeroDivisionError.
Proof.
  intro H. unfold run_locals.
  match goal with
  | |- context [_calculate_n_base ?cv ?g ?n ?h ?i] =>
      destruct (calculate_n_base_returns cv g n h i) as (nb & E & _);
      rewrite E
  end.
  cbn [bind]. fold (dropout_rate_of inp).
  unfold ceil_div. apply Qeqb_eq in H. rewrite H. reflexivity.
Qed.

Lemma run_locals_raises_screenfail inp :
  ~ 1 - dropout_rate_of inp == 0 ->
  1 - screenfail_rate_of inp == 0 ->
  run_locals inp = Raise ZeroDivisionError.
Proof.
  intros Hd H. unfold run_locals.
  match goal with
  | |- context [_calculate_n_base ?cv ?g ?n ?h ?i] =>
      destruct (calculate_n_base_returns cv g n h i) as (nb & E & _);
      rewrite E
  end.
  cbn [bind]. fold (dropout_rate_of inp). fold (screenfail_rate_of inp).
  rewrite (ceil_div_returns _ _ Hd). cbn [bind].
  unfold ceil_div. apply Qeqb_eq in H. rewrite H. reflexivity.
Qed.

(** X23. How [SampleSizeAgent.run] ends: it returns a plan exactly when
    neither the dropout rate nor the screen-fail rate is 1; when one of
    them is 1 the correction divides by zero and the agent raises
    [ZeroDivisionError].  No other exception arises, and no rate is
    rejected. *)
Theorem sample_size_run_outcome (inp : Input) :
  match run inp with
  | Ret _ =>
      ~ dropout_rate_of inp == 1 /\ ~ screenfail_rate_of inp == 1
  | Raise e =>
      e = ZeroDivisionError
      /\ (dropout_rate_of inp == 1 \/ screenfail_rate_of inp == 1)
  end.
Proof.
  destruct (Qeq_dec (1 - dropout_rate_of inp) 0) as [Hd | Hd].
  - unfold run. rewrite (run_locals_raises_dropout inp Hd). cbn [bind].
    split; [reflexivity | left; lra].
  - destruct (Qeq_dec (1 - screenfail_rate_of inp) 0) as [Hs | Hs].
    + unfold run. rewrite (run_locals_raises_screenfail inp Hd Hs).
      cbn [bind]. split; [reflexivity | right; lra].
    + destruct (run_locals_returns inp Hd Hs) as (l & E & _).
      destruct (run_instance inp l E)
        as (power & alpha & gmr & theta & dr & sr & desc & Er & _).
      rewrite Er. split; intro H; [apply Hd | apply Hs]; lra.
Qed.

(** The blood fields of the locals, with no override. *)
Lemma run_locals_blood inp l :
  in_overrides inp = no_overrides ->
  run_locals inp = Ret l ->
  l_blood_volume l
  = inject_Z (get_or (d_n_blood_points (in_design inp)) 18%Z)
    * inject_Z (get_or (d_n_periods (in_design inp)) 2%Z)
    * BLOOD_PER_POINT_ML
  /\ l_blood_ok l = Qleb (l_blood_volume l) MAX_BLOOD_ML.
Proof.
  intros Ho E. unfold run_locals in E. rewrite Ho in E.
  cbn [o_gmr o_screenfail_rate o_dropout_rate o_min_subjects
       o_blood_per_point_ml o_max_blood_ml o_max_base_subjects get_or
       no_overrides] in E.
  destruct (_calculate_n_base _ _ _ _ _) as [nb|e]; [|discriminate].
  cbn [bind] in E.
  destruct (ceil_div _ _) as [nd|e]; [|discriminate]. cbn [bind] in E.
  destruct (ceil_div _ _) as [ns|e]; [|discriminate]. cbn [bind] in E.
  apply TableFacts.Ret_inj in E. subst l.
  cbn [l_blood_volume l_blood_ok]. split; reflexivity.
Qed.

(** X24. With no override and a number of periods that is not
    negative, the blood check of the sample-size plan (points x periods
    x 5 mL within 450 mL) holds whenever the volume check of the
    timeline holds for the same points and periods: the timeline adds
    the laboratory draws and the flushes.  The converse fails: 18 points
    in 4 periods pass the first check and fail the second. *)
Theorem blood_ok_weaker_than_total_ok (inp : Input) (n_total : Z)
        (genetics : bool) :
  in_overrides inp = no_overrides ->
  (0 <= get_or (d_n_periods (in_design inp)) 2%Z)%Z ->
  ~ 1 - dropout_rate_of inp == 0 ->
  ~ 1 - screenfail_rate_of inp == 0 ->
  exists l,
    run_locals inp = Ret l
    /\ (Timeline.total_ok
          (Timeline._calculate_blood_volume
             (get_or (d_n_blood_points (in_design inp)) 18%Z)
             (get_or (d_n_periods (in_design inp)) 2%Z) n_total genetics)
        = true ->
        l_blood_ok l = true)
    /\ Qleb (inject_Z 18 * inject_Z 4 * BLOOD_PER_POINT_ML) MAX_BLOOD_ML
       = true
    /\ Timeline.total_ok (Timeline._calculate_blood_volume 18 4 36 false)
       = false.
Proof.
  intros Ho Hn Hd Hs.
  destruct (run_locals_returns inp Hd Hs) as (l & E & _).
  exists l. split; [exact E|].
  split; [|split; reflexivity].
  destruct (run_locals_blood inp l Ho E) as (Ev & Eok).
  intro Hok. rewrite Eok, Ev. apply Qleb_le.
  apply total_ok_iff in Hok. rewrite total_formula in Hok.
  set (p := get_or (d_n_blood_points (in_design inp)) 18%Z) in *.
  set (n := get_or (d_n_periods (in_design inp)) 2%Z) in *.
  assert (Hflush : 0 <= inject_Z (Z.max 0 (p * n - n))).
  { change 0 with (inject_Z 0). rewrite <- Zle_Qle. lia. }
  assert (Hlab : 0 <= inject_Z (Timeline.lab_of n genetics)).
  { change 0 with (inject_Z 0). rewrite <- Zle_Qle.
    unfold Timeline.lab_of. destruct genetics; lia. }
  unfold BLOOD_PER_POINT_ML, MAX_BLOOD_ML.
  unfold Timeline.MAX_BLOOD_PER_SUBJECT_ML in Hok.
  lra.
Qed.

Lemma blood_ok_weaker_than_total_ok_witness :
  exists l,
    run_locals scenario_standard = Ret l
    /\ (Timeline.total_ok
          (Timeline._calculate_blood_volume
             (get_or (d_n_blood_points (in_design scenario_standard)) 18%Z)
             (get_or (d_n_periods (in_design scenario_standard)) 2%Z) 36 false)
        = true ->
        l_blood_ok l = true)
    /\ Qleb (inject_Z 18 * inject_Z 4 * BLOOD_PER_POINT_ML) MAX_BLOOD_ML
       = true
    /\ Timeline.total_ok (Timeline._calculate_blood_volume 18 4 36 false)
       = false.
Proof.
  apply (blood_ok_weaker_than_total_ok scenario_standard 36 false).
  - reflexivity.
  - vm_compute. discriminate.
  - vm_compute. discriminate.
  - vm_compute. discriminate.
Defined.

Lemma budget_floors_agree periods genetics ceiling :
  (0 < periods)%Z ->
  Qfloor ((ceiling - inject_Z (Timeline.lab_of periods genetics)
           + inject_Z periods * 0.5) / (inject_Z periods * 5.5))
  = Qfloor ((ceiling - BloodSampling.lab_volume_of periods genetics
             + inject_Z periods * BloodSampling.FLUSH_ML)
            / (inject_Z periods
               * (BloodSampling.FK_SAMPLE_ML + BloodSampling.FLUSH_ML))).
Proof.
  intro Hp. rewrite Zlt_Qlt in Hp. change (inject_Z 0) with 0 in Hp.
  apply Qfloor_comp.
  rewrite <- (lab_of_volume periods genetics).
  unfold BloodSampling.FK_SAMPLE_ML, BloodSampling.FLUSH_ML.
  field. intro E. rewrite E in Hp. apply (Qlt_irrefl 0 Hp).
Qed.

(** X25. A plan of [calculate_blood_sampling] (5 mL per sample, the
    ceiling of 450 mL) handed to [calculate_timeline] as the exporter
    does: the timeline works with min(budget maximum, 20) points per
    period, and these are the points of the plan exactly when the budget
    allows the minimum of 11 points; otherwise the timeline lowers
    them. *)
Theorem timeline_keeps_plan_points
        (periods : Z) (t_half_hours tmax_hours : Q)
        (washout n_total n_sequences screening follow_up : Z)
        (genetics : bool) :
  (0 < periods)%Z -> n_sequences <> 0%Z ->
  inject_Z (Timeline.lab_of periods genetics)
  < Timeline.MAX_BLOOD_PER_SUBJECT_ML ->
  exists r fk_max tl,
    BloodSampling.calculate_blood_sampling periods t_half_hours tmax_hours
      n_total BloodSampling.FK_SAMPLE_ML genetics
      BloodSampling.MAX_BLOOD_PER_SUBJECT_ML = Ret r
    /\ BloodSampling.fk_per_period_max periods BloodSampling.FK_SAMPLE_ML
         genetics BloodSampling.MAX_BLOOD_PER_SUBJECT_ML = Ret fk_max
    /\ Timeline.calculate_timeline periods washout
         (BloodSampling.sampling_duration_hours r)
         (BloodSampling.fk_points_per_period r) n_total n_sequences
         screening follow_up genetics = Timeline.Returned tl
    /\ Timeline.fk_points_per_period (Timeline.blood tl)
       = Z.min fk_max 20
    /\ (Timeline.fk_points_per_period (Timeline.blood tl)
        = BloodSampling.fk_points_per_period r
        <-> (11 <= fk_max)%Z).
Proof.
  intros Hp Hs Hlab.
  assert (Hdiv : ~ inject_Z periods
                   * (BloodSampling.FK_SAMPLE_ML + BloodSampling.FLUSH_ML)
                   == 0).
  { pose proof (BloodFacts.divisor_positive periods
                  BloodSampling.FK_SAMPLE_ML Hp) as H.
    intro E. rewrite E in H.
    apply (Qlt_irrefl 0). apply H. vm_compute. discriminate. }
  pose proof (BloodFacts.fk_per_period_max_returns periods
                BloodSampling.FK_SAMPLE_ML genetics
                BloodSampling.MAX_BLOOD_PER_SUBJECT_ML Hdiv) as Ek.
  destruct (DesignRunFacts.plan_numbers periods t_half_hours tmax_hours
              n_total BloodSampling.FK_SAMPLE_ML genetics
              BloodSampling.MAX_BLOOD_PER_SUBJECT_ML _ Ek)
    as (r & Er & Epts & _).
  destruct (timeline_returned periods washout
              (BloodSampling.sampling_duration_hours r)
              (BloodSampling.fk_points_per_period r) n_total n_sequences
              screening follow_up genetics Hp Hs) as (k & Ekt & Et).
  destruct (max_fk_points_value periods genetics
              Timeline.MAX_BLOOD_PER_SUBJECT_ML Hp Hlab) as (Ev & _).
  rewrite Ev in Ekt. apply TableFacts.Ret_inj in Ekt.
  rewrite (budget_floors_agree periods genetics
             Timeline.MAX_BLOOD_PER_SUBJECT_ML Hp) in Ekt.
  eexists. eexists. eexists.
  split; [exact Er|]. split; [exact Ek|]. split; [exact Et|].
  cbn [Timeline.blood]. unfold Timeline._calculate_blood_volume.
  cbn [Timeline.fk_points_per_period].
  rewrite Epts. rewrite <- Ekt.
  unfold Timeline.MAX_BLOOD_POINTS_PER_PERIOD,
    BloodSampling.MAX_POINTS_PER_PERIOD, BloodSampling.MIN_POINTS_PER_PERIOD.
  change BloodSampling.MAX_BLOOD_PER_SUBJECT_ML
    with Timeline.MAX_BLOOD_PER_SUBJECT_ML.
  split; [lia|]. lia.
Qed.

Lemma timeline_keeps_plan_points_witness :
  exists r fk_max tl,
    BloodSampling.calculate_blood_sampling 4 12 1 36
      BloodSampling.FK_SAMPLE_ML false
      BloodSampling.MAX_BLOOD_PER_SUBJECT_ML = Ret r
    /\ BloodSampling.fk_per_period_max 4 BloodSampling.FK_SAMPLE_ML
         false BloodSampling.MAX_BLOOD_PER_SUBJECT_ML = Ret fk_max
    /\ Timeline.calculate_timeline 4 7
         (BloodSampling.sampling_duration_hours r)
         (BloodSampling.fk_points_per_period r) 36 2 14 7 false
       = Timeline.Returned tl
    /\ Timeline.fk_points_per_period (Timeline.blood tl)
       = Z.min fk_max 20
    /\ (Timeline.fk_points_per_period (Timeline.blood tl)
        = BloodSampling.fk_points_per_period r
        <-> (11 <= fk_max)%Z).
Proof.
  apply (timeline_keeps_plan_points 4 12 1 7 36 2 14 7 false).
  - lia.
  - lia.
  - vm_compute. reflexivity.
Defined.

End CrossFacts.
